(** * The ADA plugin system: registry, catalog and dispatch

    A shallow embedding of [server/plugins/__init__.py] (the contract
    [PluginBase] and the [PluginManager]) and of the [execute_function]
    routers of the five plugins shipped beside it, followed by the
    properties of the discovery / registration / dispatch mechanism. *)

From Stdlib Require Import String Ascii ZArith Bool.
From stdpp Require Import base tactics option list.
Import ListNotations.
Local Open Scope string_scope.
Local Open Scope list_scope.
Local Set Warnings "-register-all".

(** * Part I. Definitions *)

(** ** Python values *)

(** The values that travel in argument mappings and payloads (JSON-like). *)
Inductive PyVal : Type :=
| VNone
| VBool (b : bool)
| VInt (z : Z)
| VStr (s : string)
| VList (l : list PyVal)
| VDict (d : list (string * PyVal)).

(** ** Python dictionaries

    A [dict] keeps its keys in insertion order; assigning to a key that is
    already there replaces the value and leaves the key where it was. *)
Module PyDict.

Definition t (V : Type) : Type := list (string * V).

Definition empty {V} : t V := [].

(** [d.get(k)] *)
Fixpoint get {V} (k : string) (d : t V) : option V :=
  match d with
  | [] => None
  | (k', v) :: r => if String.eqb k' k then Some v else get k r
  end.

(** [d[k] = v] *)
Fixpoint set {V} (k : string) (v : V) (d : t V) : t V :=
  match d with
  | [] => [(k, v)]
  | (k', v') :: r =>
      if String.eqb k' k then (k', v) :: r else (k', v') :: set k v r
  end.

(** [d] without the key [k] (what is left in [**kwargs] once a named
    parameter has taken [k]). *)
Fixpoint remove {V} (k : string) (d : t V) : t V :=
  match d with
  | [] => []
  | (k', v) :: r =>
      if String.eqb k' k then remove k r else (k', v) :: remove k r
  end.

(** [k in d] *)
Definition mem {V} (k : string) (d : t V) : bool :=
  match get k d with Some _ => true | None => false end.

(** [d.keys()], [d.values()], [len(d)] *)
Definition keys {V} (d : t V) : list string := map fst d.
Definition values {V} (d : t V) : list V := map snd d.
Definition len {V} (d : t V) : nat := length d.

(** A well-formed dictionary holds each key once. *)
Definition wf {V} (d : t V) : Prop := NoDup (keys d).

End PyDict.

Abbreviation Kwargs := (PyDict.t PyVal).
Abbreviation Payload := (PyDict.t PyVal).

(** Truth value of an optional mapping, as [if x:] tests it: [None] and the
    empty dict are false. *)
Definition truthy {V} (x : option (PyDict.t V)) : bool :=
  match x with
  | None => false
  | Some [] => false
  | Some (_ :: _) => true
  end.

(** ** Exceptions and outcomes *)

Inductive PyExn : Type :=
| TypeError_missing (callee : string) (params : list string)
| TypeError_unexpected (callee : string) (k : string)
| TypeError_multiple (callee : string) (k : string)
| AttributeError (attr : string)
| OtherException (cls : string) (msg : string)
| NonException (cls : string) (msg : string).

(** [isinstance(e, Exception)]: what [except Exception] catches.
    [NonException] stands for the exceptions that derive from
    [BaseException] only ([SystemExit], [KeyboardInterrupt],
    [GeneratorExit], [asyncio.CancelledError]); [OtherException] for any
    other instance of [Exception]. *)
Definition is_Exception (e : PyExn) : bool :=
  match e with
  | NonException _ _ => false
  | _ => true
  end.

(** What a call does: it returns a value or raises. *)
Inductive outcome (A : Type) : Type :=
| Returned (a : A)
| Raised (e : PyExn).
Arguments Returned {A} a.
Arguments Raised {A} e.

(** The structured failure [{"error": msg}]. *)
Definition error_payload (msg : string) : Payload := [("error", VStr msg)].

(** ** The capability contract ([PluginBase]) *)

(** One entry of a parameter schema's ["properties"]. *)
Record Property : Type := prop {
  p_type : string;
  p_description : string;
  p_items : option string   (* element type of an ["array"] *)
}.

(** The ["parameters"] of a function declaration. *)
Record Schema : Type := {
  sc_type : string;
  sc_properties : PyDict.t Property;
  sc_required : list string
}.

(** A function declaration, as [get_functions] lists them for the
    function-calling interface. *)
Record FunctionDecl : Type := {
  fd_name : string;
  fd_description : string;
  fd_parameters : Schema
}.

(** A live plugin: what the five methods of the contract answer.
    [execute_function] is the method body, entered once the call
    [p.execute_function(function_name, **kwargs)] has bound its arguments;
    its outcome is the one the caller gets by awaiting the coroutine.
    [function_name] is annotated [str], which Python does not enforce. *)
Module PluginBase.

Record t : Type := {
  get_name : string;
  get_description : string;
  get_functions : list FunctionDecl;
  execute_function : PyVal -> Kwargs -> outcome Payload;
  get_widget_info : option (PyDict.t PyVal)
}.

End PluginBase.

(** ** Calling with [**kwargs] *)

(** The parameters of a callable, as a keyword call sees them. *)
Record Signature : Type := {
  sig_name : string;            (* qualified name of the callee *)
  sig_bound : list string;      (* parameters the call fills positionally *)
  sig_required : list string;   (* the other parameters without a default *)
  sig_optional : list string;   (* parameters with a default *)
  sig_var_kw : bool             (* a [**] parameter takes the rest *)
}.

Definition in_list (k : string) (l : list string) : bool :=
  existsb (String.eqb k) l.

(** Each keyword is matched against the parameters, in the order of the
    mapping: one that names a parameter already filled, or no parameter at
    all (without a [**] parameter to take it), is a [TypeError]. *)
Fixpoint check_keywords (sg : Signature) (kws : list string) : option PyExn :=
  match kws with
  | [] => None
  | k :: r =>
      if in_list k (sig_bound sg) then Some (TypeError_multiple (sig_name sg) k)
      else if in_list k (sig_required sg) || in_list k (sig_optional sg)
              || sig_var_kw sg
      then check_keywords sg r
      else Some (TypeError_unexpected (sig_name sg) k)
  end.

(** Binding [f( **kwargs)]: the keywords are checked, then every parameter
    without a default must have received a value. *)
Definition bind_kwargs (sg : Signature) (kwargs : Kwargs) : outcome Kwargs :=
  match check_keywords sg (PyDict.keys kwargs) with
  | Some e => Raised e
  | None =>
      match List.filter (fun p => negb (PyDict.mem p kwargs)) (sig_required sg) with
      | [] => Returned kwargs
      | missing => Raised (TypeError_missing (sig_name sg) missing)
      end
  end.

(** [execute_function(self, function_name: str, **kwargs)], the signature
    the contract declares and every plugin keeps. *)
Definition execute_function_sig : Signature :=
  {| sig_name := "execute_function";
     sig_bound := ["self"; "function_name"];
     sig_required := [];
     sig_optional := [];
     sig_var_kw := true |}.

(** The call [plugin.execute_function(function_name, **kwargs)]. *)
Definition call_execute_function (plugin : PluginBase.t) (function_name : PyVal)
    (kwargs : Kwargs) : outcome Payload :=
  match bind_kwargs execute_function_sig kwargs with
  | Raised e => Raised e
  | Returned kw => PluginBase.execute_function plugin function_name kw
  end.

(** ** The plugins of the repository *)

(** What the statements of a handler do once its arguments are bound: they
    return a mapping, or an exception (its class and its [str()]) leaves
    them: [BodyRaise] for an instance of [Exception], [BodyEscape] for one
    that derives from [BaseException] only. *)
Inductive body_result : Type :=
| BodyReturn (d : Payload)
| BodyRaise (cls : string) (msg : string)
| BodyEscape (cls : string) (msg : string).

(** The libraries and services behind the handlers (translation, QR and
    image rendering, document parsing, the file system) are outside the
    plugin system: [run_body h args] is what the statements of handler [h]
    do on the bound arguments [args], and [py_str v] is [str(v)] for a
    value that is not a string. *)
Record Env : Type := {
  run_body : string -> Kwargs -> body_result;
  py_str : PyVal -> string
}.

(** [function_name == "literal"] *)
Definition py_eq_str (v : PyVal) (s : string) : bool :=
  match v with
  | VStr s' => String.eqb s' s
  | _ => false
  end.

(** [f"{v}"] *)
Definition format_value (env : Env) (v : PyVal) : string :=
  match v with
  | VStr s => s
  | _ => py_str env v
  end.

(** A handler [async def h(self, ...)] called as [await self.h( **kwargs)].
    Binding the arguments comes first and happens in the caller. With
    [guard = Some prefix] the whole body stands in
    [try: ... except Exception as e: return {"error": f"<prefix>{str(e)}"}],
    which lets through what is not an [Exception]; with [None] the body is
    unguarded. *)
Definition method (env : Env) (sg : Signature) (guard : option string)
    (kwargs : Kwargs) : outcome Payload :=
  match bind_kwargs sg kwargs with
  | Raised e => Raised e
  | Returned args =>
      match run_body env (sig_name sg) args, guard with
      | BodyReturn d, _ => Returned d
      | BodyRaise cls msg, Some prefix => Returned (error_payload (prefix ++ msg))
      | BodyRaise cls msg, None => Raised (OtherException cls msg)
      | BodyEscape cls msg, _ => Raised (NonException cls msg)
      end
  end.

(** [document_analysis.py] *)
Module DocumentAnalysisPlugin.

Definition name : string := "document_analysis".

Definition get_name : string := name.

Definition get_description : string :=
  "Document analysis and processing with multi-format support".

Definition get_functions : list FunctionDecl :=
  [
  {| fd_name := "analyze_document";
     fd_description :=
       "Analyze and extract content from uploaded documents (PDF, DOCX, TXT, MD, RTF, CSV, XLSX, PPTX, PNG, JPG)";
     fd_parameters := {|
       sc_type := "object";
       sc_properties := [
       ("file_data", prop "string"
          "Base64 encoded file data" None);
       ("filename", prop "string"
          "Original filename with extension" None);
       ("analysis_type", prop "string"
          "Type of analysis: 'extract', 'summarize', or 'qa'" None);
       ("question", prop "string"
          "Question for Q&A analysis (required if analysis_type is 'qa')" None)];
       sc_required := ["file_data"; "filename"; "analysis_type"] |} |};
  {| fd_name := "list_documents";
     fd_description :=
       "List all uploaded and processed documents";
     fd_parameters := {|
       sc_type := "object";
       sc_properties := [];
       sc_required := [] |} |};
  {| fd_name := "delete_document";
     fd_description :=
       "Delete a document from storage";
     fd_parameters := {|
       sc_type := "object";
       sc_properties := [
       ("document_id", prop "string"
          "ID of document to delete" None)];
       sc_required := ["document_id"] |} |}
  ].

Definition _analyze_document (env : Env) : Kwargs -> outcome Payload :=
  method env
    {| sig_name := "DocumentAnalysisPlugin._analyze_document";
       sig_bound := ["self"];
       sig_required := ["file_data"; "filename"; "analysis_type"];
       sig_optional := ["question"];
       sig_var_kw := false |}
    (Some "Document analysis failed: ").

Definition _list_documents (env : Env) : Kwargs -> outcome Payload :=
  method env
    {| sig_name := "DocumentAnalysisPlugin._list_documents";
       sig_bound := ["self"];
       sig_required := [];
       sig_optional := [];
       sig_var_kw := false |}
    None.

Definition _delete_document (env : Env) : Kwargs -> outcome Payload :=
  method env
    {| sig_name := "DocumentAnalysisPlugin._delete_document";
       sig_bound := ["self"];
       sig_required := ["document_id"];
       sig_optional := [];
       sig_var_kw := false |}
    None.

Definition execute_function (env : Env) (function_name : PyVal) (kwargs : Kwargs)
  : outcome Payload :=
  if py_eq_str function_name "analyze_document" then _analyze_document env kwargs
  else if py_eq_str function_name "list_documents" then _list_documents env kwargs
  else if py_eq_str function_name "delete_document" then _delete_document env kwargs
  else Returned (error_payload ("Unknown function: " ++ format_value env function_name)).

Definition get_widget_info : option (PyDict.t PyVal) :=
  Some [("component_name", VStr "DocumentAnalysisWidget");
        ("css_file", VStr "DocumentAnalysisWidget.css");
        ("socket_events", VList [VStr "document_analysis_update"; VStr "document_list_update"])].

(** The instance [DocumentAnalysisPlugin()] leaves behind once [__init__] has returned. *)
Definition new (env : Env) : PluginBase.t :=
  {| PluginBase.get_name := get_name;
     PluginBase.get_description := get_description;
     PluginBase.get_functions := get_functions;
     PluginBase.execute_function := execute_function env;
     PluginBase.get_widget_info := get_widget_info |}.

End DocumentAnalysisPlugin.

(** [engineering_calculators.py] *)
Module EngineeringCalculatorsPlugin.

Definition name : string := "engineering_calculators".

Definition get_name : string := name.

Definition get_description : string :=
  "13 specialized engineering calculation tools".

Definition get_functions : list FunctionDecl :=
  [
  {| fd_name := "electrical_calculator";
     fd_description :=
       "Electrical engineering calculations (Ohm's Law, Power, Impedance)";
     fd_parameters := {|
       sc_type := "object";
       sc_properties := [
       ("calculation_type", prop "string"
          "Type: 'ohms_law', 'power', 'impedance', 'resonance'" None);
       ("voltage", prop "number"
          "Voltage in volts" None);
       ("current", prop "number"
          "Current in amperes" None);
       ("resistance", prop "number"
          "Resistance in ohms" None);
       ("frequency", prop "number"
          "Frequency in Hz" None);
       ("inductance", prop "number"
          "Inductance in henries" None);
       ("capacitance", prop "number"
          "Capacitance in farads" None)];
       sc_required := ["calculation_type"] |} |};
  {| fd_name := "mechanical_calculator";
     fd_description :=
       "Mechanical engineering calculations (Stress, Strain, Dynamics)";
     fd_parameters := {|
       sc_type := "object";
       sc_properties := [
       ("calculation_type", prop "string"
          "Type: 'stress', 'strain', 'dynamics', 'kinematics'" None);
       ("force", prop "number"
          "Force in newtons" None);
       ("area", prop "number"
          "Area in square meters" None);
       ("length", prop "number"
          "Length in meters" None);
       ("mass", prop "number"
          "Mass in kilograms" None);
       ("velocity", prop "number"
          "Velocity in m/s" None);
       ("acceleration", prop "number"
          "Acceleration in m/s²" None)];
       sc_required := ["calculation_type"] |} |};
  {| fd_name := "structural_calculator";
     fd_description :=
       "Structural engineering calculations (Beam analysis, Column buckling)";
     fd_parameters := {|
       sc_type := "object";
       sc_properties := [
       ("calculation_type", prop "string"
          "Type: 'beam_analysis', 'column_buckling', 'truss_analysis'" None);
       ("load", prop "number"
          "Load in newtons" None);
       ("length", prop "number"
          "Length in meters" None);
       ("modulus", prop "number"
          "Elastic modulus in Pa" None);
       ("moment_of_inertia", prop "number"
          "Moment of inertia in m⁴" None)];
       sc_required := ["calculation_type"] |} |}
  ].

Definition _electrical_calculator (env : Env) : Kwargs -> outcome Payload :=
  method env
    {| sig_name := "EngineeringCalculatorsPlugin._electrical_calculator";
       sig_bound := ["self"];
       sig_required := ["calculation_type"];
       sig_optional := [];
       sig_var_kw := true |}
    (Some "Electrical calculation failed: ").

Definition _mechanical_calculator (env : Env) : Kwargs -> outcome Payload :=
  method env
    {| sig_name := "EngineeringCalculatorsPlugin._mechanical_calculator";
       sig_bound := ["self"];
       sig_required := ["calculation_type"];
       sig_optional := [];
       sig_var_kw := true |}
    (Some "Mechanical calculation failed: ").

Definition _structural_calculator (env : Env) : Kwargs -> outcome Payload :=
  method env
    {| sig_name := "EngineeringCalculatorsPlugin._structural_calculator";
       sig_bound := ["self"];
       sig_required := ["calculation_type"];
       sig_optional := [];
       sig_var_kw := true |}
    (Some "Structural calculation failed: ").

Definition execute_function (env : Env) (function_name : PyVal) (kwargs : Kwargs)
  : outcome Payload :=
  if py_eq_str function_name "electrical_calculator" then _electrical_calculator env kwargs
  else if py_eq_str function_name "mechanical_calculator" then _mechanical_calculator env kwargs
  else if py_eq_str function_name "structural_calculator" then _structural_calculator env kwargs
  else Returned (error_payload ("Unknown function: " ++ format_value env function_name)).

Definition get_widget_info : option (PyDict.t PyVal) :=
  Some [("component_name", VStr "EngineeringCalculatorsWidget");
        ("css_file", VStr "EngineeringCalculatorsWidget.css");
        ("socket_events", VList [VStr "engineering_calculation_result"])].

(** The methods of the class as a record: what they answer on an object of
    the class whose attribute [name] is set. The constructor ([__init__]
    below) never returns such an object, so no load registers one; the
    record carries the properties of the methods themselves, the router and
    the declarations. *)
Definition new (env : Env) : PluginBase.t :=
  {| PluginBase.get_name := get_name;
     PluginBase.get_description := get_description;
     PluginBase.get_functions := get_functions;
     PluginBase.execute_function := execute_function env;
     PluginBase.get_widget_info := get_widget_info |}.


End EngineeringCalculatorsPlugin.

(** [image_generation.py] *)
Module ImageGenerationPlugin.

Definition name : string := "image_generation".

Definition get_name : string := name.

Definition get_description : string :=
  "AI image generation using Stable Diffusion XL".

Definition get_functions : list FunctionDecl :=
  [
  {| fd_name := "generate_image";
     fd_description :=
       "Generate an image using Stable Diffusion XL based on a text prompt";
     fd_parameters := {|
       sc_type := "object";
       sc_properties := [
       ("prompt", prop "string"
          "Text description of the image to generate" None);
       ("negative_prompt", prop "string"
          "What to avoid in the image (optional)" None);
       ("width", prop "integer"
          "Image width (default: 1024)" None);
       ("height", prop "integer"
          "Image height (default: 1024)" None);
       ("num_inference_steps", prop "integer"
          "Number of denoising steps (default: 20)" None);
       ("guidance_scale", prop "number"
          "How closely to follow the prompt (default: 7.5)" None)];
       sc_required := ["prompt"] |} |};
  {| fd_name := "list_generated_images";
     fd_description :=
       "List all previously generated images";
     fd_parameters := {|
       sc_type := "object";
       sc_properties := [];
       sc_required := [] |} |};
  {| fd_name := "delete_generated_image";
     fd_description :=
       "Delete a generated image";
     fd_parameters := {|
       sc_type := "object";
       sc_properties := [
       ("image_id", prop "string"
          "ID of image to delete" None)];
       sc_required := ["image_id"] |} |}
  ].

Definition _generate_image (env : Env) : Kwargs -> outcome Payload :=
  method env
    {| sig_name := "ImageGenerationPlugin._generate_image";
       sig_bound := ["self"];
       sig_required := ["prompt"];
       sig_optional := ["negative_prompt"; "width"; "height"; "num_inference_steps"; "guidance_scale"];
       sig_var_kw := false |}
    (Some "Image generation failed: ").

Definition _list_generated_images (env : Env) : Kwargs -> outcome Payload :=
  method env
    {| sig_name := "ImageGenerationPlugin._list_generated_images";
       sig_bound := ["self"];
       sig_required := [];
       sig_optional := [];
       sig_var_kw := false |}
    (Some "Failed to list images: ").

Definition _delete_generated_image (env : Env) : Kwargs -> outcome Payload :=
  method env
    {| sig_name := "ImageGenerationPlugin._delete_generated_image";
       sig_bound := ["self"];
       sig_required := ["image_id"];
       sig_optional := [];
       sig_var_kw := false |}
    (Some "Failed to delete image: ").

Definition execute_function (env : Env) (function_name : PyVal) (kwargs : Kwargs)
  : outcome Payload :=
  if py_eq_str function_name "generate_image" then _generate_image env kwargs
  else if py_eq_str function_name "list_generated_images" then _list_generated_images env kwargs
  else if py_eq_str function_name "delete_generated_image" then _delete_generated_image env kwargs
  else Returned (error_payload ("Unknown function: " ++ format_value env function_name)).

Definition get_widget_info : option (PyDict.t PyVal) :=
  Some [("component_name", VStr "ImageGenerationWidget");
        ("css_file", VStr "ImageGenerationWidget.css");
        ("socket_events", VList [VStr "image_generation_update"; VStr "image_list_update"])].

(** The instance [ImageGenerationPlugin()] leaves behind once [__init__] has returned. *)
Definition new (env : Env) : PluginBase.t :=
  {| PluginBase.get_name := get_name;
     PluginBase.get_description := get_description;
     PluginBase.get_functions := get_functions;
     PluginBase.execute_function := execute_function env;
     PluginBase.get_widget_info := get_widget_info |}.

End ImageGenerationPlugin.

(** [qr_code_generator.py] *)
Module QRCodeGeneratorPlugin.

Definition name : string := "qr_code_generator".

Definition get_name : string := name.

Definition get_description : string :=
  "QR code generation with custom styling and multiple types".

Definition get_functions : list FunctionDecl :=
  [
  {| fd_name := "generate_qr_code";
     fd_description :=
       "Generate a QR code with custom styling";
     fd_parameters := {|
       sc_type := "object";
       sc_properties := [
       ("data", prop "string"
          "Data to encode in QR code" None);
       ("qr_type", prop "string"
          "Type of QR code: 'url', 'text', 'email', 'phone', 'wifi', 'vcard'" None);
       ("size", prop "integer"
          "QR code size in pixels (default: 400)" None);
       ("foreground_color", prop "string"
          "Foreground color (hex code, default: '#000000')" None);
       ("background_color", prop "string"
          "Background color (hex code, default: '#FFFFFF')" None);
       ("logo_path", prop "string"
          "Path to logo image to embed (optional)" None);
       ("border", prop "integer"
          "Border width in pixels (default: 4)" None)];
       sc_required := ["data"; "qr_type"] |} |};
  {| fd_name := "generate_bulk_qr_codes";
     fd_description :=
       "Generate multiple QR codes in batch";
     fd_parameters := {|
       sc_type := "object";
       sc_properties := [
       ("data_list", prop "array"
          "List of data strings to encode" (Some "string"));
       ("qr_type", prop "string"
          "Type of QR code for all items" None);
       ("size", prop "integer"
          "QR code size in pixels (default: 400)" None);
       ("foreground_color", prop "string"
          "Foreground color (hex code)" None);
       ("background_color", prop "string"
          "Background color (hex code)" None)];
       sc_required := ["data_list"; "qr_type"] |} |};
  {| fd_name := "generate_wifi_qr";
     fd_description :=
       "Generate QR code for WiFi network connection";
     fd_parameters := {|
       sc_type := "object";
       sc_properties := [
       ("ssid", prop "string"
          "WiFi network name" None);
       ("password", prop "string"
          "WiFi password" None);
       ("encryption", prop "string"
          "Encryption type: 'WPA', 'WEP', 'nopass' (default: 'WPA')" None);
       ("hidden", prop "boolean"
          "Whether network is hidden (default: false)" None);
       ("size", prop "integer"
          "QR code size in pixels (default: 400)" None)];
       sc_required := ["ssid"] |} |};
  {| fd_name := "generate_vcard_qr";
     fd_description :=
       "Generate QR code for contact information (vCard)";
     fd_parameters := {|
       sc_type := "object";
       sc_properties := [
       ("name", prop "string"
          "Full name" None);
       ("phone", prop "string"
          "Phone number" None);
       ("email", prop "string"
          "Email address" None);
       ("company", prop "string"
          "Company name" None);
       ("title", prop "string"
          "Job title" None);
       ("website", prop "string"
          "Website URL" None);
       ("address", prop "string"
          "Address" None);
       ("size", prop "integer"
          "QR code size in pixels (default: 400)" None)];
       sc_required := ["name"] |} |};
  {| fd_name := "list_generated_qr_codes";
     fd_description :=
       "List all generated QR codes";
     fd_parameters := {|
       sc_type := "object";
       sc_properties := [];
       sc_required := [] |} |}
  ].

Definition _generate_qr_code (env : Env) : Kwargs -> outcome Payload :=
  method env
    {| sig_name := "QRCodeGeneratorPlugin._generate_qr_code";
       sig_bound := ["self"];
       sig_required := ["data"; "qr_type"];
       sig_optional := ["size"; "foreground_color"; "background_color"; "logo_path"; "border"];
       sig_var_kw := false |}
    (Some "QR code generation failed: ").

Definition _generate_bulk_qr_codes (env : Env) : Kwargs -> outcome Payload :=
  method env
    {| sig_name := "QRCodeGeneratorPlugin._generate_bulk_qr_codes";
       sig_bound := ["self"];
       sig_required := ["data_list"; "qr_type"];
       sig_optional := ["size"; "foreground_color"; "background_color"];
       sig_var_kw := false |}
    (Some "Bulk QR code generation failed: ").

Definition _generate_wifi_qr (env : Env) : Kwargs -> outcome Payload :=
  method env
    {| sig_name := "QRCodeGeneratorPlugin._generate_wifi_qr";
       sig_bound := ["self"];
       sig_required := ["ssid"];
       sig_optional := ["password"; "encryption"; "hidden"; "size"];
       sig_var_kw := false |}
    (Some "WiFi QR code generation failed: ").

Definition _generate_vcard_qr (env : Env) : Kwargs -> outcome Payload :=
  method env
    {| sig_name := "QRCodeGeneratorPlugin._generate_vcard_qr";
       sig_bound := ["self"];
       sig_required := ["name"];
       sig_optional := ["phone"; "email"; "company"; "title"; "website"; "address"; "size"];
       sig_var_kw := false |}
    (Some "vCard QR code generation failed: ").

Definition _list_generated_qr_codes (env : Env) : Kwargs -> outcome Payload :=
  method env
    {| sig_name := "QRCodeGeneratorPlugin._list_generated_qr_codes";
       sig_bound := ["self"];
       sig_required := [];
       sig_optional := [];
       sig_var_kw := false |}
    (Some "Failed to list QR codes: ").

Definition execute_function (env : Env) (function_name : PyVal) (kwargs : Kwargs)
  : outcome Payload :=
  if py_eq_str function_name "generate_qr_code" then _generate_qr_code env kwargs
  else if py_eq_str function_name "generate_bulk_qr_codes" then _generate_bulk_qr_codes env kwargs
  else if py_eq_str function_name "generate_wifi_qr" then _generate_wifi_qr env kwargs
  else if py_eq_str function_name "generate_vcard_qr" then _generate_vcard_qr env kwargs
  else if py_eq_str function_name "list_generated_qr_codes" then _list_generated_qr_codes env kwargs
  else Returned (error_payload ("Unknown function: " ++ format_value env function_name)).

Definition get_widget_info : option (PyDict.t PyVal) :=
  Some [("component_name", VStr "QRCodeGeneratorWidget");
        ("css_file", VStr "QRCodeGeneratorWidget.css");
        ("socket_events", VList [VStr "qr_code_generated"; VStr "bulk_qr_codes_generated"])].

(** The instance [QRCodeGeneratorPlugin()] leaves behind once [__init__] has returned. *)
Definition new (env : Env) : PluginBase.t :=
  {| PluginBase.get_name := get_name;
     PluginBase.get_description := get_description;
     PluginBase.get_functions := get_functions;
     PluginBase.execute_function := execute_function env;
     PluginBase.get_widget_info := get_widget_info |}.

End QRCodeGeneratorPlugin.

(** [translation.py] *)
Module TranslationPlugin.

Definition name : string := "translation".

Definition get_name : string := name.

Definition get_description : string :=
  "Multi-language translation with 100+ supported languages".

Definition get_functions : list FunctionDecl :=
  [
  {| fd_name := "translate_text";
     fd_description :=
       "Translate text between supported languages";
     fd_parameters := {|
       sc_type := "object";
       sc_properties := [
       ("text", prop "string"
          "Text to translate" None);
       ("target_language", prop "string"
          "Target language code (e.g., 'es', 'fr', 'de')" None);
       ("source_language", prop "string"
          "Source language code (auto-detect if not specified)" None)];
       sc_required := ["text"; "target_language"] |} |};
  {| fd_name := "detect_language";
     fd_description :=
       "Detect the language of given text";
     fd_parameters := {|
       sc_type := "object";
       sc_properties := [
       ("text", prop "string"
          "Text to detect language for" None)];
       sc_required := ["text"] |} |};
  {| fd_name := "get_supported_languages";
     fd_description :=
       "Get list of all supported languages";
     fd_parameters := {|
       sc_type := "object";
       sc_properties := [];
       sc_required := [] |} |};
  {| fd_name := "translate_batch";
     fd_description :=
       "Translate multiple texts to multiple languages";
     fd_parameters := {|
       sc_type := "object";
       sc_properties := [
       ("texts", prop "array"
          "Array of texts to translate" (Some "string"));
       ("target_languages", prop "array"
          "Array of target language codes" (Some "string"));
       ("source_language", prop "string"
          "Source language code (auto-detect if not specified)" None)];
       sc_required := ["texts"; "target_languages"] |} |}
  ].

Definition _translate_text (env : Env) : Kwargs -> outcome Payload :=
  method env
    {| sig_name := "TranslationPlugin._translate_text";
       sig_bound := ["self"];
       sig_required := ["text"; "target_language"];
       sig_optional := ["source_language"];
       sig_var_kw := false |}
    (Some "Translation failed: ").

Definition _detect_language (env : Env) : Kwargs -> outcome Payload :=
  method env
    {| sig_name := "TranslationPlugin._detect_language";
       sig_bound := ["self"];
       sig_required := ["text"];
       sig_optional := [];
       sig_var_kw := false |}
    (Some "Language detection failed: ").

Definition _get_supported_languages (env : Env) : Kwargs -> outcome Payload :=
  method env
    {| sig_name := "TranslationPlugin._get_supported_languages";
       sig_bound := ["self"];
       sig_required := [];
       sig_optional := [];
       sig_var_kw := false |}
    None.

Definition _translate_batch (env : Env) : Kwargs -> outcome Payload :=
  method env
    {| sig_name := "TranslationPlugin._translate_batch";
       sig_bound := ["self"];
       sig_required := ["texts"; "target_languages"];
       sig_optional := ["source_language"];
       sig_var_kw := false |}
    (Some "Batch translation failed: ").

Definition execute_function (env : Env) (function_name : PyVal) (kwargs : Kwargs)
  : outcome Payload :=
  if py_eq_str function_name "translate_text" then _translate_text env kwargs
  else if py_eq_str function_name "detect_language" then _detect_language env kwargs
  else if py_eq_str function_name "get_supported_languages" then _get_supported_languages env kwargs
  else if py_eq_str function_name "translate_batch" then _translate_batch env kwargs
  else Returned (error_payload ("Unknown function: " ++ format_value env function_name)).

Definition get_widget_info : option (PyDict.t PyVal) :=
  Some [("component_name", VStr "TranslationWidget");
        ("css_file", VStr "TranslationWidget.css");
        ("socket_events", VList [VStr "translation_update"; VStr "language_detection_update"])].

(** The instance [TranslationPlugin()] leaves behind once [__init__] has returned. *)
Definition new (env : Env) : PluginBase.t :=
  {| PluginBase.get_name := get_name;
     PluginBase.get_description := get_description;
     PluginBase.get_functions := get_functions;
     PluginBase.execute_function := execute_function env;
     PluginBase.get_widget_info := get_widget_info |}.

End TranslationPlugin.
(** ** What the loader sees of the interpreter *)

(** A class found in a module: [cls_subclass] is
    [issubclass(cls, PluginBase)] and [cls_call] is what [cls()] does, an
    instance or the exception that leaves the constructor (an abstract
    subclass raises [TypeError] there). *)
Record PyClass : Type := {
  cls_name : string;
  cls_subclass : bool;
  cls_call : outcome PluginBase.t
}.

(** A member of a module: [PluginBase] itself (every plugin module imports
    it), another class, or anything else. *)
Inductive PyObj : Type :=
| ObjPluginBase
| ObjClass (c : PyClass)
| ObjOther.

(** A module, given by [inspect.getmembers(module)]: its (name, value)
    pairs, which [inspect] returns sorted by name. *)
Record PyModule : Type := {
  getmembers : list (string * PyObj)
}.

Definition isclass (obj : PyObj) : bool :=
  match obj with
  | ObjOther => false
  | _ => true
  end.

(** [issubclass(obj, PluginBase)]; the loader asks it of classes only. *)
Definition issubclass_PluginBase (obj : PyObj) : bool :=
  match obj with
  | ObjPluginBase => true
  | ObjClass c => cls_subclass c
  | ObjOther => false
  end.

(** [obj != PluginBase] *)
Definition is_not_PluginBase (obj : PyObj) : bool :=
  match obj with
  | ObjPluginBase => false
  | _ => true
  end.

(** [obj()] *)
Definition call_class (obj : PyObj) : outcome PluginBase.t :=
  match obj with
  | ObjClass c => cls_call c
  | ObjPluginBase =>
      Raised (OtherException "TypeError" "Can't instantiate abstract class PluginBase")
  | ObjOther => Raised (OtherException "TypeError" "object is not callable")
  end.

(** The test of the loader:
    [inspect.isclass(obj) and issubclass(obj, PluginBase) and obj != PluginBase]. *)
Definition is_plugin_class (obj : PyObj) : bool :=
  isclass obj && issubclass_PluginBase obj && is_not_PluginBase obj.

(** The plugin directory and the import system: [listdir] is
    [os.listdir(self.plugin_dir)] and [import_module n] is
    [importlib.import_module(n)]. *)
Record Host : Type := {
  listdir : outcome (list string);
  import_module : string -> outcome PyModule
}.

(** ** String helpers of [discover_plugins] *)

(** [s.startswith(p)] *)
Definition startswith (s p : string) : bool := String.prefix p s.

(** [s.endswith(p)] *)
Definition endswith (s p : string) : bool :=
  (String.length p <=? String.length s)%nat
  && String.eqb (String.substring (String.length s - String.length p)
                                  (String.length p) s) p.

(** [s[:-3]] *)
Definition strip_extension (s : string) : string :=
  String.substring 0 (String.length s - 3) s.

(** ** [PluginManager] *)

Module PluginManager.

(** A line the loader prints. *)
Inductive Line : Type :=
| Loaded_plugin (name : string)
    (* [f"Loaded plugin: {plugin_instance.get_name()}"] *)
| Failed_to_load_plugin (plugin_name : string) (e : PyExn)
    (* [f"Failed to load plugin {plugin_name}: {e}"] *).

(** What a run does besides updating [self.plugins]. *)
Inductive Effect : Type :=
| Instantiate (c : PyObj)   (* the call [obj()] *)
| Print (l : Line).

(** [plugins] is [self.plugins]; [trace] lists the effects so far, oldest
    first. *)
Record State : Type := {
  plugins : PyDict.t PluginBase.t;
  trace : list Effect
}.

(** [PluginManager()] *)
Definition init : State := {| plugins := PyDict.empty; trace := [] |}.

(** *** Statements: state, output and exceptions *)

Definition M (A : Type) : Type := State -> outcome A * State.

Definition ret {A} (a : A) : M A := fun st => (Returned a, st).

Definition raise {A} (e : PyExn) : M A := fun st => (Raised e, st).

Definition bind {A B} (m : M A) (k : A -> M B) : M B :=
  fun st =>
    match m st with
    | (Returned a, st') => k a st'
    | (Raised e, st') => (Raised e, st')
    end.

Notation "x <- m ;; k" := (bind m (fun x => k))
  (at level 100, m at next level, right associativity).
Notation "m ;;; k" := (bind m (fun _ => k))
  (at level 100, right associativity).

(** [try: m except Exception as e: h e]: an exception that is not an
    instance of [Exception] is not caught. *)
Definition try_except {A} (m : M A) (h : PyExn -> M A) : M A :=
  fun st =>
    match m st with
    | (Returned a, st') => (Returned a, st')
    | (Raised e, st') => if is_Exception e then h e st' else (Raised e, st')
    end.

(** The outcome of a call made from the manager. *)
Definition lift {A} (o : outcome A) : M A := fun st => (o, st).

Definition emit (e : Effect) : M unit :=
  fun st => (Returned tt, {| plugins := plugins st; trace := trace st ++ [e] |}).

Definition print (l : Line) : M unit := emit (Print l).

(** [self.plugins[key] = plugin_instance] *)
Definition set_plugin (key : string) (plugin_instance : PluginBase.t) : M unit :=
  fun st =>
    (Returned tt,
     {| plugins := PyDict.set key plugin_instance (plugins st); trace := trace st |}).

(** [for x in xs: body x] *)
Fixpoint for_each {A} (xs : list A) (body : A -> M unit) : M unit :=
  match xs with
  | [] => ret tt
  | x :: r => body x ;;; for_each r body
  end.

(** *** [discover_plugins] *)

Fixpoint plugin_files (filenames : list string) : list string :=
  match filenames with
  | [] => []
  | filename :: r =>
      if endswith filename ".py" && negb (startswith filename "__")
      then strip_extension filename :: plugin_files r
      else plugin_files r
  end.

Definition discover_plugins (host : Host) : M (list string) :=
  filenames <- lift (listdir host) ;;
  ret (plugin_files filenames).

(** *** [load_plugins] *)

(** The inner loop over [inspect.getmembers(module)]: the first member that
    passes the test is instantiated and registered, and [break] ends the
    loop. *)
Fixpoint load_members (members : list (string * PyObj)) : M unit :=
  match members with
  | [] => ret tt
  | (name, obj) :: rest =>
      if is_plugin_class obj
      then
        emit (Instantiate obj) ;;;
        plugin_instance <- lift (call_class obj) ;;
        set_plugin (PluginBase.get_name plugin_instance) plugin_instance ;;;
        print (Loaded_plugin (PluginBase.get_name plugin_instance))
      else load_members rest
  end.

(** The body of the outer loop, for one discovered name. *)
Definition load_plugin (host : Host) (plugin_name : string) : M unit :=
  try_except
    (module <- lift (import_module host ("plugins." ++ plugin_name)) ;;
     load_members (getmembers module))
    (fun e => print (Failed_to_load_plugin plugin_name e)).

Definition load_plugins (host : Host) : M (PyDict.t PluginBase.t) :=
  plugin_names <- discover_plugins host ;;
  for_each plugin_names (load_plugin host) ;;;
  (fun st => (Returned (plugins st), st)).

(** *** [get_all_functions] *)

Definition get_all_functions (st : State) : list FunctionDecl :=
  fold_left
    (fun functions plugin => functions ++ PluginBase.get_functions plugin)
    (PyDict.values (plugins st)) [].

(** *** [get_function_mapping] *)

(** An entry of the mapping: the lambda
    [lambda plugin=plugin, func_name=func_name, **kwargs: ...], which keeps
    the plugin and the name of its iteration as the defaults of its two
    named parameters. *)
Record Entry : Type := {
  entry_plugin : PluginBase.t;
  entry_func_name : string
}.

Definition get_function_mapping (st : State) : PyDict.t Entry :=
  fold_left
    (fun mapping plugin =>
       fold_left
         (fun mapping func_info =>
            let func_name := fd_name func_info in
            PyDict.set func_name
              {| entry_plugin := plugin; entry_func_name := func_name |} mapping)
         (PluginBase.get_functions plugin) mapping)
    (PyDict.values (plugins st)) PyDict.empty.

(** Calling an entry with an argument mapping, [entry( **arguments)]: a
    keyword named [plugin] or [func_name] goes to the parameter of that name
    and replaces its default, the others are collected in [kwargs]; the body
    is [plugin.execute_function(func_name, **kwargs)]. A value of an
    argument mapping has no attribute [execute_function]. *)
Definition call_entry (e : Entry) (arguments : Kwargs) : outcome Payload :=
  let kwargs := PyDict.remove "func_name" (PyDict.remove "plugin" arguments) in
  match PyDict.get "plugin" arguments with
  | Some _ => Raised (AttributeError "execute_function")
  | None =>
      let func_name :=
        match PyDict.get "func_name" arguments with
        | Some v => v
        | None => VStr (entry_func_name e)
        end in
      call_execute_function (entry_plugin e) func_name kwargs
  end.

(** *** [get_widget_info] *)

Definition get_widget_info (st : State) : PyDict.t (PyDict.t PyVal) :=
  fold_left
    (fun widgets plugin =>
       match PluginBase.get_widget_info plugin with
       | Some widget_info =>
           if truthy (Some widget_info)
           then PyDict.set (PluginBase.get_name plugin) widget_info widgets
           else widgets
       | None => widgets
       end)
    (PyDict.values (plugins st)) PyDict.empty.

(** *** Dispatch *)

(** Modelled from the spec: the repository's sources at hand stop at
    [get_function_mapping]; the dispatcher that looks a name up in that
    mapping is not among them. Following section 4.6: look up the entry; if
    absent, return the structured failure
    [{"error": "unknown operation: <name>"}] without raising; if present,
    forward to the owning capability's invoke and return its result
    unchanged. *)
Definition dispatch (st : State) (name : string) (arguments : Kwargs)
  : outcome Payload :=
  match PyDict.get name (get_function_mapping st) with
  | None => Returned (error_payload ("unknown operation: " ++ name))
  | Some entry => call_entry entry arguments
  end.

End PluginManager.

(** ** Reading a run *)

(** The lines printed and the classes instantiated, in order. *)
Fixpoint printed (tr : list PluginManager.Effect) : list PluginManager.Line :=
  match tr with
  | [] => []
  | PluginManager.Print l :: r => l :: printed r
  | PluginManager.Instantiate _ :: r => printed r
  end.

Fixpoint instantiated (tr : list PluginManager.Effect) : list PyObj :=
  match tr with
  | [] => []
  | PluginManager.Instantiate c :: r => c :: instantiated r
  | PluginManager.Print _ :: r => instantiated r
  end.

(** What becomes of one discovered name: its first plugin class gave an
    instance; or an [Exception] left the import or the constructor and was
    caught; or the module has no plugin class; or an exception that is not
    an [Exception] left the import or the constructor, and with it the
    load. *)
Inductive LoadResult : Type :=
| Registered (p : PluginBase.t)
| LoadFailed (e : PyExn)
| NoPluginClass
| LoadAborted (e : PyExn).

Definition first_plugin_class (m : PyModule) : option PyObj :=
  match List.find (fun member => is_plugin_class (snd member)) (getmembers m) with
  | Some (_, obj) => Some obj
  | None => None
  end.

(** What [except Exception] makes of an exception. *)
Definition caught_or_not (e : PyExn) : LoadResult :=
  if is_Exception e then LoadFailed e else LoadAborted e.

Definition resolve (host : Host) (plugin_name : string) : LoadResult :=
  match import_module host ("plugins." ++ plugin_name) with
  | Raised e => caught_or_not e
  | Returned m =>
      match first_plugin_class m with
      | None => NoPluginClass
      | Some obj =>
          match call_class obj with
          | Raised e => caught_or_not e
          | Returned p => Registered p
          end
      end
  end.

(** The exception that ends the load of [plugin_names] before its time, if
    any: that of the first candidate that lets one through. *)
Fixpoint load_abort (host : Host) (plugin_names : list string) : option PyExn :=
  match plugin_names with
  | [] => None
  | n :: r =>
      match resolve host n with
      | LoadAborted e => Some e
      | _ => load_abort host r
      end
  end.

(** The instances the load of [plugin_names] registers, in order; the load
    stops at a candidate that lets an exception through. *)
Fixpoint registrations (host : Host) (plugin_names : list string)
  : list PluginBase.t :=
  match plugin_names with
  | [] => []
  | n :: r =>
      match resolve host n with
      | Registered p => p :: registrations host r
      | LoadAborted _ => []
      | _ => registrations host r
      end
  end.

(** The lines the load of [plugin_names] prints, in order. *)
Fixpoint load_lines (host : Host) (plugin_names : list string)
  : list PluginManager.Line :=
  match plugin_names with
  | [] => []
  | n :: r =>
      match resolve host n with
      | Registered p =>
          PluginManager.Loaded_plugin (PluginBase.get_name p) :: load_lines host r
      | LoadFailed e =>
          PluginManager.Failed_to_load_plugin n e :: load_lines host r
      | NoPluginClass => load_lines host r
      | LoadAborted _ => []
      end
  end.

(** The line of the [except] clause, when the clause catches [e]. *)
Definition failure_lines (plugin_name : string) (e : PyExn)
  : list PluginManager.Effect :=
  if is_Exception e
  then [PluginManager.Print (PluginManager.Failed_to_load_plugin plugin_name e)]
  else [].

(** The effects of the outer loop's body for one discovered name. *)
Definition load_effects (host : Host) (plugin_name : string)
  : list PluginManager.Effect :=
  match import_module host ("plugins." ++ plugin_name) with
  | Raised e => failure_lines plugin_name e
  | Returned m =>
      match first_plugin_class m with
      | None => []
      | Some obj =>
          PluginManager.Instantiate obj
          :: match call_class obj with
             | Returned p =>
                 [PluginManager.Print
                    (PluginManager.Loaded_plugin (PluginBase.get_name p))]
             | Raised e => failure_lines plugin_name e
             end
      end
  end.

(** The effects of the load of [plugin_names]. *)
Fixpoint load_trace (host : Host) (plugin_names : list string)
  : list PluginManager.Effect :=
  match plugin_names with
  | [] => []
  | n :: r =>
      load_effects host n
      ++ match resolve host n with
         | LoadAborted _ => []
         | _ => load_trace host r
         end
  end.

(** The instances a load registers: none when the directory cannot be
    listed. *)
Definition load_registrations (host : Host) : list PluginBase.t :=
  match listdir host with
  | Returned filenames => registrations host (PluginManager.plugin_files filenames)
  | Raised _ => []
  end.

(** [self.plugins[p.get_name()] = p] for each [p] of [ps], in order. *)
Definition register_all (ps : list PluginBase.t) (d : PyDict.t PluginBase.t)
  : PyDict.t PluginBase.t :=
  fold_left (fun d p => PyDict.set (PluginBase.get_name p) p d) ps d.

(** The widget entries of a list of plugins: name and descriptor of each
    plugin whose [get_widget_info()] is true as a condition. *)
Fixpoint widget_items (ps : list PluginBase.t) : PyDict.t (PyDict.t PyVal) :=
  match ps with
  | [] => []
  | p :: r =>
      match PluginBase.get_widget_info p with
      | Some (item :: more) => (PluginBase.get_name p, item :: more) :: widget_items r
      | _ => widget_items r
      end
  end.

(** [declares p n]: [n] is the name of one of [p]'s declarations. *)
Definition declares (p : PluginBase.t) (n : string) : bool :=
  in_list n (map fd_name (PluginBase.get_functions p)).

(** The last plugin of [ps] that declares [n]. *)
Fixpoint owner (n : string) (ps : list PluginBase.t) : option PluginBase.t :=
  match ps with
  | [] => None
  | p :: r =>
      match owner n r with
      | Some q => Some q
      | None => if declares p n then Some p else None
      end
  end.

(** The registry invariant: each key once, and each key the name of the
    instance under it. *)
Definition registry_ok (d : PyDict.t PluginBase.t) : Prop :=
  PyDict.wf d /\ forall k p, (k, p) ∈ d -> PluginBase.get_name p = k.

(** The states a manager goes through: created, then any number of loads,
    each from the directory and the import system of its moment. *)
Inductive after_loads : PluginManager.State -> Prop :=
| after_init : after_loads PluginManager.init
| after_load host st :
    after_loads st -> after_loads (snd (PluginManager.load_plugins host st)).

(** The five plugins of the repository. *)
Definition repository_plugins (env : Env) : list PluginBase.t :=
  [ DocumentAnalysisPlugin.new env;
    EngineeringCalculatorsPlugin.new env;
    ImageGenerationPlugin.new env;
    QRCodeGeneratorPlugin.new env;
    TranslationPlugin.new env ].

(** ** Two readings the code does not meet *)

(** Every discovered candidate that ends up outside the registry has a line
    of the output that names it with its cause. *)
Definition every_excluded_candidate_is_logged : Prop :=
  forall host filenames n,
    listdir host = Returned filenames ->
    n ∈ PluginManager.plugin_files filenames ->
    (forall p, resolve host n <> Registered p) ->
    exists e,
      PluginManager.Failed_to_load_plugin n e
      ∈ printed (PluginManager.trace
                   (snd (PluginManager.load_plugins host PluginManager.init))).

(** Of two declarations of one name, the catalog keeps one entry, the later
    capability's. *)
Definition catalog_keeps_later_declaration_only : Prop :=
  forall st q1 a q2 b q3 da db,
    registry_ok (PluginManager.plugins st) ->
    PyDict.values (PluginManager.plugins st) = q1 ++ a :: q2 ++ b :: q3 ->
    da ∈ PluginBase.get_functions a ->
    db ∈ PluginBase.get_functions b ->
    fd_name da = fd_name db ->
    List.filter (fun f => String.eqb (fd_name f) (fd_name db))
      (PluginManager.get_all_functions st)
    = [db].

(** Of a candidate module with more than one plugin class, the loader
    makes exactly one instance, that of the first, and registers it. *)
Definition first_class_gives_one_instance : Prop :=
  forall host plugin_name m st name obj more,
    import_module host ("plugins." ++ plugin_name) = Returned m ->
    List.filter (fun member => is_plugin_class (snd member)) (getmembers m)
    = (name, obj) :: more ->
    more <> [] ->
    exists p,
      call_class obj = Returned p
      /\ PluginManager.plugins (snd (PluginManager.load_plugin host plugin_name st))
         = PyDict.set (PluginBase.get_name p) p (PluginManager.plugins st).

(** ** Sample plugins, modules and hosts *)

Module Examples.

Definition env0 : Env :=
  {| run_body := fun _ _ => BodyReturn [];
     py_str := fun _ => "" |}.

Definition decl (n d : string) : FunctionDecl :=
  {| fd_name := n;
     fd_description := d;
     fd_parameters :=
       {| sc_type := "object"; sc_properties := []; sc_required := [] |} |}.

(** A plugin that answers with the name and the arguments it received. *)
Definition echo (who : string) (function_name : PyVal) (kwargs : Kwargs)
  : outcome Payload :=
  Returned [("plugin", VStr who); ("function", function_name); ("kwargs", VDict kwargs)].

Definition widget (component : string) : PyDict.t PyVal :=
  [("component_name", VStr component);
   ("css_file", VStr (component ++ ".css"));
   ("socket_events", VList [])].

(** Capability A declares [foo]; capability B declares [bar] and [foo]. *)
Definition plugin_A : PluginBase.t :=
  {| PluginBase.get_name := "A";
     PluginBase.get_description := "capability A";
     PluginBase.get_functions := [decl "foo" "foo of A"];
     PluginBase.execute_function := echo "A";
     PluginBase.get_widget_info := None |}.

Definition plugin_B : PluginBase.t :=
  {| PluginBase.get_name := "B";
     PluginBase.get_description := "capability B";
     PluginBase.get_functions := [decl "bar" "bar of B"; decl "foo" "foo of B"];
     PluginBase.execute_function := echo "B";
     PluginBase.get_widget_info := Some (widget "BWidget") |}.

Definition plugin_C : PluginBase.t :=
  {| PluginBase.get_name := "C";
     PluginBase.get_description := "capability C";
     PluginBase.get_functions := [decl "baz" "baz of C"];
     PluginBase.execute_function := echo "C";
     PluginBase.get_widget_info := None |}.

(** A second capability that also calls itself [A]. *)
Definition plugin_A2 : PluginBase.t :=
  {| PluginBase.get_name := "A";
     PluginBase.get_description := "another capability A";
     PluginBase.get_functions := [decl "qux" "qux of the second A"];
     PluginBase.execute_function := echo "A2";
     PluginBase.get_widget_info := None |}.

Definition registry_AB : PluginManager.State :=
  {| PluginManager.plugins := [("A", plugin_A); ("B", plugin_B)];
     PluginManager.trace := [] |}.

Definition registry_ABC : PluginManager.State :=
  {| PluginManager.plugins := [("A", plugin_A); ("B", plugin_B); ("C", plugin_C)];
     PluginManager.trace := [] |}.

Definition registry_translation : PluginManager.State :=
  {| PluginManager.plugins := [("translation", TranslationPlugin.new env0)];
     PluginManager.trace := [] |}.

Definition plugin_class (n : string) (p : PluginBase.t) : PyObj :=
  ObjClass {| cls_name := n; cls_subclass := true; cls_call := Returned p |}.

Definition other_class (n : string) : PyObj :=
  ObjClass {| cls_name := n;
              cls_subclass := false;
              cls_call := Raised (OtherException "TypeError" "missing argument") |}.

Definition broken_class : PyObj :=
  ObjClass {| cls_name := "BrokenPlugin";
              cls_subclass := true;
              cls_call := Raised (OtherException "RuntimeError" "model not found") |}.

(** [translation.py], as [inspect.getmembers] lists it. *)
Definition module_translation : PyModule :=
  {| getmembers :=
       [("Any", ObjOther); ("DetectorFactory", other_class "DetectorFactory");
        ("Dict", ObjOther); ("List", ObjOther); ("Optional", ObjOther);
        ("PluginBase", ObjPluginBase); ("TRANSLATION_AVAILABLE", ObjOther);
        ("TranslationPlugin",
         plugin_class "TranslationPlugin" (TranslationPlugin.new env0));
        ("Translator", other_class "Translator");
        ("asyncio", ObjOther); ("detect", ObjOther); ("json", ObjOther)] |}.

Definition module_a : PyModule :=
  {| getmembers := [("APlugin", plugin_class "APlugin" plugin_A);
                    ("PluginBase", ObjPluginBase)] |}.

Definition module_a2 : PyModule :=
  {| getmembers := [("PluginBase", ObjPluginBase);
                    ("SecondA", plugin_class "SecondA" plugin_A2)] |}.

(** A module with two plugin classes. *)
Definition module_bc : PyModule :=
  {| getmembers := [("BPlugin", plugin_class "BPlugin" plugin_B);
                    ("CPlugin", plugin_class "CPlugin" plugin_C);
                    ("PluginBase", ObjPluginBase)] |}.

(** A module of helpers: classes and functions, no plugin. *)
Definition module_helpers : PyModule :=
  {| getmembers := [("Path", other_class "Path"); ("PluginBase", ObjPluginBase);
                    ("slugify", ObjOther)] |}.

Definition module_broken : PyModule :=
  {| getmembers := [("BrokenPlugin", broken_class); ("PluginBase", ObjPluginBase)] |}.

Definition imports (n : string) : outcome PyModule :=
  if String.eqb n "plugins.a" then Returned module_a
  else if String.eqb n "plugins.a2" then Returned module_a2
  else if String.eqb n "plugins.bc" then Returned module_bc
  else if String.eqb n "plugins.helpers" then Returned module_helpers
  else if String.eqb n "plugins.broken" then Returned module_broken
  else if String.eqb n "plugins.translation" then Returned module_translation
  else Raised (OtherException "ModuleNotFoundError" n).

Definition host_of (filenames : list string) : Host :=
  {| listdir := Returned filenames; import_module := imports |}.

(** A directory with three plugins, one of which fails in its constructor. *)
Definition host_three : Host :=
  host_of ["__init__.py"; "a.py"; "broken.py"; "__pycache__"; "bc.py"; "README.md"].

(** A directory whose only module has no plugin class. *)
Definition host_helpers : Host := host_of ["__init__.py"; "helpers.py"].

(** A directory with two plugins that both call themselves [A]. *)
Definition host_twins : Host := host_of ["a.py"; "bc.py"; "a2.py"].

End Examples.

(** ** Argument mappings and parameter schemas *)

(** An argument mapping conforms to a schema when each of its keys is one
    of the schema's properties and each required property has a value. *)
Definition conforms (sc : Schema) (kwargs : Kwargs) : bool :=
  forallb (fun k => PyDict.mem k (sc_properties sc)) (PyDict.keys kwargs)
  && forallb (fun r => PyDict.mem r kwargs) (sc_required sc).

(** A keyword a call with signature [sg] accepts. *)
Definition accepts (sg : Signature) (k : string) : bool :=
  negb (in_list k (sig_bound sg))
  && (in_list k (sig_required sg) || in_list k (sig_optional sg) || sig_var_kw sg).

(** The functions whose handler has no [try] around its body. *)
Definition unguarded_functions : list string :=
  ["get_supported_languages"; "list_documents"; "delete_document"].

(** The [TypeError]s of a call whose arguments do not bind. *)
Definition is_binding_error (e : PyExn) : bool :=
  match e with
  | TypeError_missing _ _ | TypeError_unexpected _ _ | TypeError_multiple _ _ => true
  | _ => false
  end.

(** ** What the interpreter says of values *)

(** The texts of the interpreter's own exceptions differ between versions
    of Python; they are taken from the interpreter at hand:
    [unhashable_message v] is the text of the [TypeError] raised when the
    list or dict [v] is used as a key, [not_iterable_message v] the text of
    the [TypeError] raised when [v] is iterated and cannot be. *)
Record Python : Type := {
  unhashable_message : PyVal -> string;
  not_iterable_message : PyVal -> string
}.

(** [key in d] for a dict [d] whose keys are strings: [None] when the key
    is a list or a dict, which are not hashable (a [TypeError]); no other
    value equals a string. *)
Definition py_in {V} (key : PyVal) (d : PyDict.t V) : option bool :=
  match key with
  | VStr s => Some (PyDict.mem s d)
  | VList _ | VDict _ => None
  | _ => Some false
  end.

(** The characters of a string held as UTF-8: a byte [10xxxxxx] continues
    the character before it. *)
Definition is_continuation (c : ascii) : bool :=
  (128 <=? nat_of_ascii c)%nat && (nat_of_ascii c <? 192)%nat.

Fixpoint utf8_chars (s : string) : list string :=
  match s with
  | EmptyString => []
  | String c r =>
      match r with
      | EmptyString => [String c EmptyString]
      | String c' _ =>
          if is_continuation c'
          then match utf8_chars r with
               | g :: gs => String c g :: gs
               | [] => [String c EmptyString]
               end
          else String c EmptyString :: utf8_chars r
      end
  end.

(** The items [for x in v] goes through: the elements of a list, the
    characters of a string, the keys of a dict; [None] for a value that is
    not iterable (a [TypeError]). *)
Definition py_iter (v : PyVal) : option (list PyVal) :=
  match v with
  | VList l => Some l
  | VStr s => Some (map VStr (utf8_chars s))
  | VDict d => Some (map VStr (PyDict.keys d))
  | _ => None
  end.

(** ** The document store of [DocumentAnalysisPlugin] *)

Module Documents.

(** What [_analyze_document] keeps of a document, under the MD5 digest of
    its bytes; [upload_time] is a number that is only copied. *)
Record doc_info : Type := {
  filename : PyVal;
  content : PyVal;
  file_size : PyVal;
  upload_time : PyVal
}.

(** [self.documents] *)
Definition store : Type := PyDict.t doc_info.

(** An entry of the listing. *)
Definition listed (doc : string * doc_info) : PyVal :=
  VDict [("id", VStr (fst doc));
         ("filename", filename (snd doc));
         ("file_size", file_size (snd doc));
         ("upload_time", upload_time (snd doc))].

(** [_list_documents]: reads the store. *)
Definition _list_documents (documents : store) : Payload :=
  [("documents", VList (map listed documents))].

(** [_delete_document]: the answer (or the exception, the handler has no
    [try]) and the store afterwards. *)
Definition _delete_document (python : Python) (document_id : PyVal) (documents : store)
  : outcome Payload * store :=
  match document_id, py_in document_id documents with
  | _, None =>
      (Raised (OtherException "TypeError" (unhashable_message python document_id)),
       documents)
  | VStr s, Some true =>
      (Returned [("success", VBool true); ("message", VStr "Document deleted")],
       PyDict.remove s documents)
  | _, _ => (Returned (error_payload "Document not found"), documents)
  end.

End Documents.

(** ** Bulk generation of QR codes *)

Module QRCodes.

(** The keys of [self.qr_types]. *)
Definition qr_types : PyDict.t string :=
  [("url", "ERROR_CORRECT_L"); ("text", "ERROR_CORRECT_M");
   ("email", "ERROR_CORRECT_M"); ("phone", "ERROR_CORRECT_M");
   ("wifi", "ERROR_CORRECT_M"); ("vcard", "ERROR_CORRECT_M")].

(** The call [await self._generate_qr_code(data=..., qr_type=..., size=...,
    foreground_color=..., background_color=...)]: the five keywords bind,
    and the handler, which stands in a [try: ... except Exception], returns
    its mapping or the mapping of its [except] clause, unless an exception
    that is not an [Exception] leaves it. *)
Definition generate_one (env : Env) (data qr_type size foreground_color
    background_color : PyVal) : body_result :=
  match run_body env "QRCodeGeneratorPlugin._generate_qr_code"
          [("data", data); ("qr_type", qr_type); ("size", size);
           ("foreground_color", foreground_color);
           ("background_color", background_color)] with
  | BodyReturn d => BodyReturn d
  | BodyRaise _ msg => BodyReturn (error_payload ("QR code generation failed: " ++ msg))
  | BodyEscape cls msg => BodyEscape cls msg
  end.

(** The loop [for i, data in enumerate(data_list)] and the [return] after
    it ([finish], on the results): a result without the key ["error"] gets
    its index and joins [results], any other is left out; an exception that
    leaves a call leaves the loop. *)
Fixpoint bulk_loop (generate : PyVal -> body_result)
    (finish : list Payload -> Payload) (i : nat) (items : list PyVal)
    (results : list Payload) : body_result :=
  match items with
  | [] => BodyReturn (finish results)
  | data :: rest =>
      match generate data with
      | BodyReturn result =>
          if negb (PyDict.mem "error" result)
          then bulk_loop generate finish (S i) rest
                 (results ++ [PyDict.set "index" (VInt (Z.of_nat i)) result])
          else bulk_loop generate finish (S i) rest results
      | raised => raised
      end
  end.

(** The mapping of the [return] statement. *)
Definition bulk_answer (qr_type : PyVal) (items : list PyVal) (results : list Payload)
  : Payload :=
  [("bulk_results", VList (map VDict results));
   ("total_generated", VInt (Z.of_nat (length results)));
   ("total_requested", VInt (Z.of_nat (length items)));
   ("qr_type", qr_type)].

(** The statements of [_generate_bulk_qr_codes] inside its [try], on the
    values of its five parameters ([size], [foreground_color] and
    [background_color] default to [400], ["#000000"] and ["#FFFFFF"]). *)
Definition _generate_bulk_qr_codes_body (env : Env) (python : Python)
    (data_list qr_type size foreground_color background_color : PyVal) : body_result :=
  match py_in qr_type qr_types with
  | None => BodyRaise "TypeError" (unhashable_message python qr_type)
  | Some false =>
      BodyReturn (error_payload ("Unsupported QR type: " ++ format_value env qr_type))
  | Some true =>
      match py_iter data_list with
      | None => BodyRaise "TypeError" (not_iterable_message python data_list)
      | Some items =>
          bulk_loop
            (fun data =>
               generate_one env data qr_type size foreground_color background_color)
            (bulk_answer qr_type items) 0 items []
      end
  end.

End QRCodes.

(** The results a bulk run keeps of [items], the first of which has index
    [i]: those without the key ["error"], each with its index. *)
Fixpoint kept_results (generate : PyVal -> Payload) (i : nat) (items : list PyVal)
  : list Payload :=
  match items with
  | [] => []
  | data :: rest =>
      if negb (PyDict.mem "error" (generate data))
      then PyDict.set "index" (VInt (Z.of_nat i)) (generate data)
           :: kept_results generate (S i) rest
      else kept_results generate (S i) rest
  end.


(** ** Further samples *)

Module Samples.

Definition python0 : Python :=
  {| unhashable_message := fun _ => "unhashable type";
     not_iterable_message := fun _ => "object is not iterable" |}.

Definition report : Documents.doc_info :=
  {| Documents.filename := VStr "report.pdf";
     Documents.content := VStr "quarterly figures";
     Documents.file_size := VInt 2048;
     Documents.upload_time := VInt 17 |}.

Definition notes : Documents.doc_info :=
  {| Documents.filename := VStr "notes.txt";
     Documents.content := VStr "to do";
     Documents.file_size := VInt 5;
     Documents.upload_time := VInt 42 |}.

Definition documents : Documents.store :=
  [("9e107d9d372bb6826bd81d3542a419d6", report);
   ("e4d909c290d0fb1ca068ffaddf22cbd0", notes)].

(** An environment in which the QR handler fails on empty data. *)
Definition env_qr : Env :=
  {| run_body := fun _ args =>
       match PyDict.get "data" args with
       | Some (VStr "") => BodyRaise "ValueError" "no data"
       | Some v => BodyReturn [("data", v); ("filename", VStr "qr.png")]
       | None => BodyReturn []
       end;
     py_str := fun _ => "" |}.

(** An environment in which the QR handler fails on data too long for a
    QR code. *)
Definition env_overflow : Env :=
  {| run_body := fun _ args =>
       match PyDict.get "data" args with
       | Some (VStr d) =>
           if (2953 <? String.length d)%nat
           then BodyRaise "DataOverflowError" "data too long"
           else BodyReturn [("data", VStr d); ("filename", VStr "qr.png")]
       | Some v => BodyReturn [("data", v); ("filename", VStr "qr.png")]
       | None => BodyReturn []
       end;
     py_str := fun _ => "" |}.

Definition long_data : string :=
  String.concat "" (repeat "0123456789abcdef0123456789abcdef" 100).

(** A module with two plugin classes, the first of which fails in its
    constructor. *)
Definition module_broken_c : PyModule :=
  {| getmembers := [("BrokenPlugin", Examples.broken_class);
                    ("CPlugin", Examples.plugin_class "CPlugin" Examples.plugin_C);
                    ("PluginBase", ObjPluginBase)] |}.

Definition host_broken_c : Host :=
  {| listdir := Returned ["broken_c.py"];
     import_module := fun _ => Returned module_broken_c |}.

(** A module whose plugin class calls [sys.exit] in its constructor. *)
Definition exiting_class : PyObj :=
  ObjClass {| cls_name := "ExitingPlugin";
              cls_subclass := true;
              cls_call := Raised (NonException "SystemExit" "1") |}.

Definition module_exiting : PyModule :=
  {| getmembers := [("ExitingPlugin", exiting_class); ("PluginBase", ObjPluginBase)] |}.

Definition host_exiting : Host :=
  {| listdir := Returned ["a.py"; "exiting.py"; "bc.py"];
     import_module := fun n =>
       if String.eqb n "plugins.exiting" then Returned module_exiting
       else Examples.imports n |}.



End Samples.

(** * Part II. Properties *)

(** ** Dictionaries *)

Section PyDictFacts.
Context {V : Type}.
Implicit Types (d : PyDict.t V) (k : string) (v : V).

Lemma get_set_eq k v d : PyDict.get k (PyDict.set k v d) = Some v.
Proof.
  induction d as [|[k' v'] r IH]; simpl.
  - by rewrite String.eqb_refl.
  - destruct (String.eqb_spec k' k) as [->|Hne]; simpl.
    + by rewrite String.eqb_refl.
    + destruct (String.eqb_spec k' k); [done|]. exact IH.
Qed.

Lemma get_set_ne k k' v d :
  k <> k' -> PyDict.get k' (PyDict.set k v d) = PyDict.get k' d.
Proof.
  intros Hne. induction d as [|[k0 v0] r IH]; simpl.
  - destruct (String.eqb_spec k k'); [done|]. reflexivity.
  - destruct (String.eqb_spec k0 k) as [->|Hk]; simpl.
    + destruct (String.eqb_spec k k'); [done|]. reflexivity.
    + destruct (String.eqb_spec k0 k'); [done|]. exact IH.
Qed.

Lemma get_Some_elem k v d : PyDict.get k d = Some v -> (k, v) ∈ d.
Proof.
  induction d as [|[k' v'] r IH]; simpl; [done|].
  destruct (String.eqb_spec k' k) as [->|Hne].
  - intros Heq. inversion Heq; subst. left.
  - intros H. right. by apply IH.
Qed.

Lemma get_None_keys k d : PyDict.get k d = None <-> k ∉ PyDict.keys d.
Proof.
  induction d as [|[k' v'] r IH]; simpl.
  - split; [intros _; apply not_elem_of_nil | done].
  - destruct (String.eqb_spec k' k) as [->|Hne].
    + split; [done|]. intros H. exfalso. apply H. left.
    + rewrite IH, not_elem_of_cons.
      split; [intros ?; split; [congruence | done] | by intros [_ ?]].
Qed.

Lemma elem_get k v d : PyDict.wf d -> (k, v) ∈ d -> PyDict.get k d = Some v.
Proof.
  unfold PyDict.wf. induction d as [|[k' v'] r IH]; simpl.
  - intros _ H. by apply elem_of_nil in H.
  - intros Hnd H. apply NoDup_cons in Hnd as [Hnin Hnd].
    apply elem_of_cons in H as [[= -> ->]|H].
    + by rewrite String.eqb_refl.
    + destruct (String.eqb_spec k' k) as [->|Hne]; [|by apply IH].
      exfalso. apply Hnin. change (k ∈ PyDict.keys r).
      unfold PyDict.keys. apply list_elem_of_fmap. by exists (k, v).
Qed.

Lemma keys_set k v d :
  PyDict.keys (PyDict.set k v d)
  = if PyDict.mem k d then PyDict.keys d else PyDict.keys d ++ [k].
Proof.
  unfold PyDict.mem. induction d as [|[k' v'] r IH]; simpl; [done|].
  destruct (String.eqb_spec k' k) as [->|Hne]; simpl; [done|].
  rewrite IH. by destruct (PyDict.get k r).
Qed.

Lemma wf_set k v d : PyDict.wf d -> PyDict.wf (PyDict.set k v d).
Proof.
  unfold PyDict.wf. intros Hnd. rewrite keys_set. unfold PyDict.mem.
  destruct (PyDict.get k d) eqn:Hg; [done|].
  apply NoDup_app. split; [done|]. split.
  - intros x Hx Hx'. apply list_elem_of_singleton in Hx' as ->.
    by apply get_None_keys in Hg.
  - apply NoDup_singleton.
Qed.

Lemma elem_set k v k' v' d :
  (k', v') ∈ PyDict.set k v d ->
  (k' = k /\ v' = v) \/ (k' <> k /\ (k', v') ∈ d) \/ (k' = k /\ (k', v') ∈ d).
Proof.
  induction d as [|[k0 v0] r IH]; simpl.
  - intros H. apply list_elem_of_singleton in H as [= -> ->]. by left.
  - destruct (String.eqb_spec k0 k) as [->|Hne].
    + intros H. apply elem_of_cons in H as [[= -> ->]|H]; [by left|].
      destruct (String.string_dec k' k) as [->|Hk].
      * right. right. split; [done|]. by right.
      * right. left. split; [done|]. by right.
    + intros H. apply elem_of_cons in H as [[= -> ->]|H].
      * right. left. split; [done|]. left.
      * destruct (IH H) as [?|[[? ?]|[? ?]]]; [by left| |].
        -- right. left. split; [done|]. by right.
        -- right. right. split; [done|]. by right.
Qed.

Lemma len_set k v d :
  PyDict.len (PyDict.set k v d)
  = if PyDict.mem k d then PyDict.len d else S (PyDict.len d).
Proof.
  unfold PyDict.len, PyDict.mem. induction d as [|[k' v'] r IH]; simpl; [done|].
  destruct (String.eqb_spec k' k) as [->|Hne]; simpl; [done|].
  rewrite IH. by destruct (PyDict.get k r).
Qed.

Lemma set_fresh k v d : PyDict.get k d = None -> PyDict.set k v d = d ++ [(k, v)].
Proof.
  induction d as [|[k' v'] r IH]; simpl; [done|].
  destruct (String.eqb_spec k' k) as [->|Hne]; [done|].
  intros H. by rewrite IH.
Qed.

Lemma get_remove_ne k k' d :
  k <> k' -> PyDict.get k' (PyDict.remove k d) = PyDict.get k' d.
Proof.
  intros Hne. induction d as [|[k0 v0] r IH]; simpl; [done|].
  destruct (String.eqb_spec k0 k) as [->|Hk]; simpl.
  - destruct (String.eqb_spec k k'); [done|]. exact IH.
  - destruct (String.eqb_spec k0 k'); [done|]. exact IH.
Qed.

Lemma remove_absent k d : PyDict.get k d = None -> PyDict.remove k d = d.
Proof.
  induction d as [|[k0 v0] r IH]; simpl; [done|].
  destruct (String.eqb_spec k0 k) as [->|Hk]; [done|].
  intros H. by rewrite IH.
Qed.

End PyDictFacts.

(** ** Running the loader *)

Section Loader.
Import PluginManager.

Lemma printed_app tr1 tr2 : printed (tr1 ++ tr2) = printed tr1 ++ printed tr2.
Proof.
  induction tr1 as [|[c|l] tr1 IH]; simpl; [done|done|]. by rewrite IH.
Qed.

Lemma instantiated_app tr1 tr2 :
  instantiated (tr1 ++ tr2) = instantiated tr1 ++ instantiated tr2.
Proof.
  induction tr1 as [|[c|l] tr1 IH]; simpl; [done| |done]. by rewrite IH.
Qed.

(** The inner loop stops at the first member that passes the test. *)
Lemma load_members_run members st :
  load_members members st =
  match List.find (fun member => is_plugin_class (snd member)) members with
  | None => (Returned tt, st)
  | Some (_, obj) =>
      match call_class obj with
      | Returned p =>
          (Returned tt,
           {| plugins := PyDict.set (PluginBase.get_name p) p (plugins st);
              trace := trace st
                       ++ [Instantiate obj; Print (Loaded_plugin (PluginBase.get_name p))] |})
      | Raised e =>
          (Raised e, {| plugins := plugins st; trace := trace st ++ [Instantiate obj] |})
      end
  end.
Proof.
  induction members as [|[name obj] rest IH]; simpl; [done|].
  destruct (is_plugin_class obj); [|exact IH].
  unfold bind, emit, lift, set_plugin, print, emit; simpl.
  destruct (call_class obj) as [p|e]; simpl; [|done].
  by rewrite <- app_assoc.
Qed.

(** The body of the outer loop: an [Exception] that leaves the import or
    the constructor is caught and printed; any other exception leaves the
    body. *)
Lemma load_plugin_run host plugin_name st :
  load_plugin host plugin_name st =
  (match resolve host plugin_name with
   | LoadAborted e => Raised e
   | _ => Returned tt
   end,
   {| plugins :=
        match resolve host plugin_name with
        | Registered p => PyDict.set (PluginBase.get_name p) p (plugins st)
        | _ => plugins st
        end;
      trace := trace st ++ load_effects host plugin_name |}).
Proof.
  unfold load_plugin, try_except, bind, lift, resolve, load_effects, first_plugin_class,
    caught_or_not, failure_lines.
  destruct (import_module host _) as [m|e]; simpl.
  - rewrite load_members_run.
    destruct (List.find _ (getmembers m)) as [[name obj]|]; simpl.
    + destruct (call_class obj) as [p|e]; simpl; [done|].
      destruct (is_Exception e); simpl; [|done].
      unfold print, emit; simpl. by rewrite <- app_assoc.
    + rewrite app_nil_r. by destruct st.
  - destruct (is_Exception e); simpl; [done|].
    rewrite app_nil_r. by destruct st.
Qed.

Lemma for_each_load_run host plugin_names st :
  for_each plugin_names (load_plugin host) st =
  (match load_abort host plugin_names with
   | Some e => Raised e
   | None => Returned tt
   end,
   {| plugins := register_all (registrations host plugin_names) (plugins st);
      trace := trace st ++ load_trace host plugin_names |}).
Proof.
  revert st. induction plugin_names as [|n r IH]; intros st; simpl.
  - rewrite app_nil_r. by destruct st.
  - unfold bind. rewrite load_plugin_run.
    destruct (resolve host n) as [p|e| |e]; simpl;
      rewrite ?IH; simpl; rewrite ?app_nil_r, <- ?app_assoc; done.
Qed.

Lemma printed_load_trace host plugin_names :
  printed (load_trace host plugin_names) = load_lines host plugin_names.
Proof.
  induction plugin_names as [|n r IH]; simpl; [done|].
  rewrite printed_app. unfold load_effects, resolve, caught_or_not, failure_lines.
  destruct (import_module host _) as [m|e]; simpl.
  - destruct (first_plugin_class m) as [obj|]; simpl; [|done].
    destruct (call_class obj) as [p|e]; simpl; [by rewrite IH|].
    destruct (is_Exception e); simpl; by rewrite ?IH.
  - destruct (is_Exception e); simpl; by rewrite ?IH.
Qed.

(** A load whose directory can be listed goes through the candidates, to
    the last one or to the first that lets an exception through. *)
Lemma load_plugins_run host filenames st :
  listdir host = Returned filenames ->
  load_plugins host st =
  let plugin_names := plugin_files filenames in
  let plugins' := register_all (registrations host plugin_names) (plugins st) in
  (match load_abort host plugin_names with
   | Some e => Raised e
   | None => Returned plugins'
   end,
   {| plugins := plugins';
      trace := trace st ++ load_trace host plugin_names |}).
Proof.
  intros Hls. unfold load_plugins, discover_plugins, bind, lift, ret.
  rewrite Hls; simpl. rewrite for_each_load_run.
  by destruct (load_abort host _).
Qed.

(** A load whose directory cannot be listed changes nothing. *)
Lemma load_plugins_abort host e st :
  listdir host = Raised e -> load_plugins host st = (Raised e, st).
Proof.
  intros Hls. unfold load_plugins, discover_plugins, bind, lift. by rewrite Hls.
Qed.

(** The load stops early exactly at a candidate that lets through an
    exception that is not an [Exception]. *)
Lemma load_abort_Some host plugin_names e :
  load_abort host plugin_names = Some e ->
  is_Exception e = false
  /\ exists n, n ∈ plugin_names /\ resolve host n = LoadAborted e.
Proof.
  induction plugin_names as [|n r IH]; simpl; [done|].
  destruct (resolve host n) as [p|e'| |e'] eqn:Hres;
    try (intros H; destruct (IH H) as (? & n' & ? & ?);
         split; [done|]; exists n'; split; [by right | done]).
  intros [= ->]. split; [|exists n; split; [left | done]].
  unfold resolve, caught_or_not in Hres.
  destruct (import_module host _) as [m|e0].
  - destruct (first_plugin_class m) as [obj|]; [|done].
    destruct (call_class obj) as [p|e0]; [done|].
    destruct (is_Exception e0) eqn:He0; [done|]. by injection Hres as <-.
  - destruct (is_Exception e0) eqn:He0; [done|]. by injection Hres as <-.
Qed.

Lemma load_abort_None host plugin_names :
  (forall n e, n ∈ plugin_names -> resolve host n <> LoadAborted e) ->
  load_abort host plugin_names = None.
Proof.
  induction plugin_names as [|n r IH]; intros Hno; simpl; [done|].
  destruct (resolve host n) as [p|e| |e] eqn:Hres;
    try (apply IH; intros n' e' Hn'; apply Hno; by right).
  exfalso. apply (Hno n e); [left | done].
Qed.

End Loader.

(** ** The registry *)

Section Registry.
Import PluginManager.
Implicit Types (d : PyDict.t PluginBase.t) (p q : PluginBase.t).

Lemma register_all_app ps qs d :
  register_all (ps ++ qs) d = register_all qs (register_all ps d).
Proof. unfold register_all. apply fold_left_app. Qed.

Lemma registry_ok_empty : registry_ok PyDict.empty.
Proof.
  split; [apply NoDup_nil_2|]. intros k p H. by apply elem_of_nil in H.
Qed.

Lemma registry_ok_set p d :
  registry_ok d -> registry_ok (PyDict.set (PluginBase.get_name p) p d).
Proof.
  intros [Hwf Hnames]. split; [by apply wf_set|].
  intros k q H. apply elem_set in H as [[-> ->]|[[_ H]|[_ H]]]; eauto.
Qed.

Lemma registry_ok_register_all ps d :
  registry_ok d -> registry_ok (register_all ps d).
Proof.
  revert d. induction ps as [|p ps IH]; intros d Hd; [done|].
  apply IH. by apply registry_ok_set.
Qed.

(** A load keeps the invariant, whether it runs to its end or not. *)
Lemma registry_ok_load host st :
  registry_ok (plugins st) -> registry_ok (plugins (snd (load_plugins host st))).
Proof.
  intros Hok. destruct (listdir host) as [filenames|e] eqn:Hls.
  - rewrite (load_plugins_run _ _ _ Hls); simpl. by apply registry_ok_register_all.
  - by rewrite (load_plugins_abort _ _ _ Hls).
Qed.

Lemma after_loads_registry_ok st : after_loads st -> registry_ok (plugins st).
Proof.
  induction 1 as [|host st _ IH]; [apply registry_ok_empty|].
  by apply registry_ok_load.
Qed.

(** Registrations under other names leave a key alone. *)
Lemma get_register_all_other k ps d :
  (forall q, q ∈ ps -> PluginBase.get_name q <> k) ->
  PyDict.get k (register_all ps d) = PyDict.get k d.
Proof.
  revert d. induction ps as [|p ps IH]; intros d Hne; [done|].
  simpl. rewrite IH.
  - apply get_set_ne. apply Hne. left.
  - intros q Hq. apply Hne. by right.
Qed.

(** The last registration under a name is the one the registry keeps. *)
Lemma get_register_all_last ps p qs d :
  (forall q, q ∈ qs -> PluginBase.get_name q <> PluginBase.get_name p) ->
  PyDict.get (PluginBase.get_name p) (register_all (ps ++ p :: qs) d) = Some p.
Proof.
  intros Hne. rewrite register_all_app. simpl.
  rewrite get_register_all_other by done. apply get_set_eq.
Qed.

(** In a registry that satisfies the invariant, an instance that is not the
    one under its own name is not there at all. *)
Lemma not_in_values p q d :
  registry_ok d ->
  PyDict.get (PluginBase.get_name p) d = Some q -> p <> q ->
  p ∉ PyDict.values d.
Proof.
  intros [Hwf Hnames] Hget Hpq Hin.
  unfold PyDict.values in Hin. apply list_elem_of_fmap in Hin as [[k p'] [-> Hin]].
  simpl in *. pose proof (Hnames _ _ Hin) as Hk. subst k.
  apply (elem_get _ _ _ Hwf) in Hin. congruence.
Qed.

(** Registrations under fresh, pairwise distinct names append. *)
Lemma values_register_all_fresh ps d :
  NoDup (map PluginBase.get_name ps) ->
  (forall q, q ∈ ps -> PyDict.get (PluginBase.get_name q) d = None) ->
  PyDict.values (register_all ps d) = PyDict.values d ++ ps.
Proof.
  revert d. induction ps as [|p ps IH]; intros d Hnd Hfresh; simpl.
  - by rewrite app_nil_r.
  - apply NoDup_cons in Hnd as [Hp Hnd].
    rewrite IH; [| done |].
    + rewrite set_fresh by (apply Hfresh; left).
      unfold PyDict.values. rewrite map_app. simpl. by rewrite <- app_assoc.
    + intros q Hq. rewrite get_set_ne; [apply Hfresh; by right|].
      intros Heq. apply Hp. rewrite Heq.
      apply list_elem_of_fmap. by exists q.
Qed.

End Registry.

(** ** Loading *)

Section Loading.
Import PluginManager.

(** C9. After any sequence of loads, every key of the plugin mapping is the
    name reported by the instance stored under it:
    [plugins[k].get_name() == k]. *)
Theorem registry_keys_are_names st k p :
  after_loads st ->
  PyDict.get k (plugins st) = Some p ->
  PluginBase.get_name p = k.
Proof.
  intros Hst Hget. destruct (after_loads_registry_ok st Hst) as [_ Hnames].
  apply Hnames. by apply get_Some_elem.
Qed.

Lemma registry_keys_are_names_witness :
  let st := snd (load_plugins Examples.host_three (snd (load_plugins Examples.host_twins init))) in
  PyDict.keys (plugins st) = ["A"; "B"]
  /\ PluginBase.get_name Examples.plugin_B = "B".
Proof.
  split; [reflexivity|].
  apply (registry_keys_are_names
           (snd (load_plugins Examples.host_three
                   (snd (load_plugins Examples.host_twins init)))) "B" Examples.plugin_B).
  - apply after_load, after_load, after_init.
  - reflexivity.
Defined.

(** C6. When two capabilities of a load report the same identity, the
    registry afterwards answers that identity with the instance registered
    later (last write wins), and the earlier instance is no longer among the
    registry's values. *)
Theorem later_registration_wins host filenames st l1 p1 l2 p2 l3 :
  after_loads st ->
  listdir host = Returned filenames ->
  registrations host (plugin_files filenames) = l1 ++ p1 :: l2 ++ p2 :: l3 ->
  PluginBase.get_name p1 = PluginBase.get_name p2 ->
  p1 <> p2 ->
  (forall q, q ∈ l3 -> PluginBase.get_name q <> PluginBase.get_name p2) ->
  let st' := snd (load_plugins host st) in
  PyDict.get (PluginBase.get_name p2) (plugins st') = Some p2
  /\ p1 ∉ PyDict.values (plugins st').
Proof.
  intros Hst Hls Hregs Hname Hdiff Hlast st'.
  assert (Hget : PyDict.get (PluginBase.get_name p2) (plugins st') = Some p2).
  { subst st'. rewrite (load_plugins_run _ _ _ Hls); simpl. rewrite Hregs.
    replace (l1 ++ p1 :: l2 ++ p2 :: l3) with ((l1 ++ p1 :: l2) ++ p2 :: l3)
      by (by rewrite <- app_assoc).
    by apply get_register_all_last. }
  split; [exact Hget|].
  apply (not_in_values p1 p2); [| by rewrite Hname | done].
  apply registry_ok_load. by apply after_loads_registry_ok.
Qed.

Lemma later_registration_wins_witness :
  let st' := snd (load_plugins Examples.host_twins init) in
  registrations Examples.host_twins ["a"; "bc"; "a2"]
  = [Examples.plugin_A; Examples.plugin_B; Examples.plugin_A2]
  /\ PyDict.get "A" (plugins st') = Some Examples.plugin_A2
  /\ Examples.plugin_A ∉ PyDict.values (plugins st').
Proof.
  split; [reflexivity|].
  apply (later_registration_wins Examples.host_twins ["a.py"; "bc.py"; "a2.py"] init
           [] Examples.plugin_A [Examples.plugin_B] Examples.plugin_A2 []).
  - apply after_init.
  - reflexivity.
  - reflexivity.
  - reflexivity.
  - intros H. discriminate (f_equal PluginBase.get_description H).
  - intros q Hq. by apply elem_of_nil in Hq.
Defined.

(** C5, as stated, fails: a candidate module without a plugin class is left
    out of the registry and nothing is printed about it. *)
Lemma excluded_candidate_not_logged : ~ every_excluded_candidate_is_logged.
Proof.
  intros H.
  destruct (H Examples.host_helpers ["__init__.py"; "helpers.py"] "helpers")
    as [e He].
  - reflexivity.
  - vm_compute. left.
  - intros p Hp. vm_compute in Hp. discriminate Hp.
  - vm_compute in He. by apply elem_of_nil in He.
Qed.

(** C5, amended. For every sequence of discovered candidates: a candidate
    whose import or whose first plugin class's constructor raises an
    [Exception] is caught, printed as a failure with its name and cause,
    and left out, and the load continues; a candidate without a plugin
    class is left out and nothing is printed; an exception that is not an
    [Exception] ([SystemExit], [KeyboardInterrupt]) is not caught and leaves
    the load at that candidate, the candidates before it loaded. The
    registry afterwards is the result of registering the successful
    instances in order, and holds exactly those N instances when their
    names are pairwise distinct; the load returns it when no such exception
    occurred. *)
Theorem load_isolates_failures host filenames :
  listdir host = Returned filenames ->
  let plugin_names := plugin_files filenames in
  let run := load_plugins host init in
  fst run = match load_abort host plugin_names with
            | Some e => Raised e
            | None => Returned (plugins (snd run))
            end
  /\ ((forall n e, n ∈ plugin_names -> resolve host n <> LoadAborted e) ->
      fst run = Returned (plugins (snd run)))
  /\ printed (trace (snd run)) = load_lines host plugin_names
  /\ plugins (snd run) = register_all (registrations host plugin_names) PyDict.empty
  /\ (NoDup (map PluginBase.get_name (registrations host plugin_names)) ->
      PyDict.values (plugins (snd run)) = registrations host plugin_names).
Proof.
  intros Hls plugin_names run. subst run.
  rewrite (load_plugins_run _ _ _ Hls); simpl.
  split; [done|]. split.
  { intros Hno. fold plugin_names. by rewrite (load_abort_None _ _ Hno). }
  split; [apply printed_load_trace|]. split; [done|].
  intros Hnd. by rewrite values_register_all_fresh.
Qed.

Lemma load_isolates_failures_witness :
  let run := load_plugins Examples.host_three init in
  fst run = Returned (plugins (snd run))
  /\ printed (trace (snd run))
     = [Loaded_plugin "A";
        Failed_to_load_plugin "broken" (OtherException "RuntimeError" "model not found");
        Loaded_plugin "B"]
  /\ PyDict.values (plugins (snd run)) = [Examples.plugin_A; Examples.plugin_B].
Proof.
  destruct (load_isolates_failures Examples.host_three
              ["__init__.py"; "a.py"; "broken.py"; "__pycache__"; "bc.py"; "README.md"]
              eq_refl) as (Hfst & _ & Hlines & _ & Hvalues).
  split; [exact Hfst|]. split; [exact Hlines|].
  apply Hvalues. vm_compute.
  apply NoDup_cons. split; [intros H; apply list_elem_of_singleton in H; discriminate H|].
  apply NoDup_singleton.
Defined.

End Loading.

(** ** One candidate module *)

Section Candidate.
Import PluginManager.

Lemma find_of_filter {A} (P : A -> bool) (l : list A) x more :
  List.filter P l = x :: more -> List.find P l = Some x.
Proof.
  induction l as [|y l IH]; simpl; [done|].
  destruct (P y); [|exact IH]. by intros [= ->].
Qed.

(** C7, as stated, fails: in a module whose first plugin class raises in its
    constructor and whose second would not, no instance is made at all. *)
Lemma first_class_may_give_no_instance : ~ first_class_gives_one_instance.
Proof.
  intros H.
  destruct (H Samples.host_broken_c "broken_c" Samples.module_broken_c init
              "BrokenPlugin" Examples.broken_class
              [("CPlugin", Examples.plugin_class "CPlugin" Examples.plugin_C)]
              eq_refl eq_refl) as (p & Hcall & _).
  - discriminate.
  - discriminate Hcall.
Qed.

(** C7, amended. When a candidate module holds more than one plugin class,
    the loader calls the constructor of exactly one of them, the first in
    the order of the module's members, and registers the instance that the
    call returns; when the call raises, no instance is made for the module:
    an [Exception] is printed as the candidate's failure, any other
    exception leaves the load. In every case the later plugin classes are
    neither instantiated nor mentioned in the output. *)
Theorem first_plugin_class_only host plugin_name m st name obj more :
  import_module host ("plugins." ++ plugin_name) = Returned m ->
  List.filter (fun member => is_plugin_class (snd member)) (getmembers m)
  = (name, obj) :: more ->
  more <> [] ->
  let run := load_plugin host plugin_name st in
  instantiated (trace (snd run)) = instantiated (trace st) ++ [obj]
  /\ match call_class obj with
     | Returned p =>
         fst run = Returned tt
         /\ plugins (snd run) = PyDict.set (PluginBase.get_name p) p (plugins st)
         /\ trace (snd run)
            = trace st ++ [Instantiate obj; Print (Loaded_plugin (PluginBase.get_name p))]
     | Raised e =>
         plugins (snd run) = plugins st
         /\ if is_Exception e
            then fst run = Returned tt
                 /\ trace (snd run)
                    = trace st
                      ++ [Instantiate obj; Print (Failed_to_load_plugin plugin_name e)]
            else fst run = Raised e
                 /\ trace (snd run) = trace st ++ [Instantiate obj]
     end.
Proof.
  intros Himp Hfilter _ run. subst run. rewrite load_plugin_run; simpl.
  apply find_of_filter in Hfilter.
  unfold load_effects, resolve, first_plugin_class, caught_or_not, failure_lines.
  rewrite Himp, Hfilter.
  destruct (call_class obj) as [p|e]; simpl.
  - rewrite instantiated_app. done.
  - rewrite instantiated_app. destruct (is_Exception e); simpl; done.
Qed.

Lemma first_plugin_class_only_witness :
  let run := load_plugin (Examples.host_of ["bc.py"]) "bc" init in
  List.filter (fun member => is_plugin_class (snd member)) (getmembers Examples.module_bc)
  = [("BPlugin", Examples.plugin_class "BPlugin" Examples.plugin_B);
     ("CPlugin", Examples.plugin_class "CPlugin" Examples.plugin_C)]
  /\ instantiated (trace (snd run)) = [Examples.plugin_class "BPlugin" Examples.plugin_B]
  /\ plugins (snd run) = [("B", Examples.plugin_B)].
Proof.
  split; [reflexivity|].
  destruct (first_plugin_class_only (Examples.host_of ["bc.py"]) "bc" Examples.module_bc
              init "BPlugin" (Examples.plugin_class "BPlugin" Examples.plugin_B)
              [("CPlugin", Examples.plugin_class "CPlugin" Examples.plugin_C)])
    as (Hinst & _ & Hplugins & _).
  - reflexivity.
  - reflexivity.
  - discriminate.
  - split; [exact Hinst | exact Hplugins].
Defined.

End Candidate.

(** ** The catalog *)

Section Catalog.
Import PluginManager.

Lemma fold_left_extend {A B} (f : A -> list B) (xs : list A) (acc : list B) :
  fold_left (fun functions x => functions ++ f x) xs acc = acc ++ concat (map f xs).
Proof.
  revert acc. induction xs as [|x xs IH]; intros acc; simpl.
  - by rewrite app_nil_r.
  - rewrite IH. by rewrite <- app_assoc.
Qed.

(** The catalog is the concatenation of the declaration lists. *)
Lemma get_all_functions_concat st :
  get_all_functions st
  = concat (map PluginBase.get_functions (PyDict.values (plugins st))).
Proof. unfold get_all_functions. by rewrite fold_left_extend. Qed.

(** C2, as stated, fails: with A declaring [foo] and B declaring [bar] and
    [foo], the catalog has two entries named [foo], A's first. *)
Lemma catalog_keeps_both_declarations : ~ catalog_keeps_later_declaration_only.
Proof.
  intros H.
  specialize (H Examples.registry_AB [] Examples.plugin_A [] Examples.plugin_B []
                (Examples.decl "foo" "foo of A") (Examples.decl "foo" "foo of B")).
  assert (Hok : registry_ok (plugins Examples.registry_AB)).
  { change (registry_ok (register_all [Examples.plugin_A; Examples.plugin_B] PyDict.empty)).
    apply registry_ok_register_all, registry_ok_empty. }
  specialize (H Hok eq_refl).
  assert (Ha : Examples.decl "foo" "foo of A" ∈ PluginBase.get_functions Examples.plugin_A)
    by left.
  assert (Hb : Examples.decl "foo" "foo of B" ∈ PluginBase.get_functions Examples.plugin_B)
    by (right; left).
  specialize (H Ha Hb eq_refl). vm_compute in H. discriminate H.
Qed.

(** C2, amended. For every registry in which two capabilities each declare
    an operation with the same name, the catalog contains both declarations,
    the earlier capability's before the later's: the catalog is the
    concatenation of the capabilities' declaration lists in the iteration
    order of the registry, one entry per declaration, nothing merged. *)
Theorem catalog_lists_every_declaration st q1 a q2 b q3 da db :
  PyDict.values (plugins st) = q1 ++ a :: q2 ++ b :: q3 ->
  da ∈ PluginBase.get_functions a ->
  db ∈ PluginBase.get_functions b ->
  fd_name da = fd_name db ->
  get_all_functions st
  = concat (map PluginBase.get_functions (PyDict.values (plugins st)))
  /\ exists l1 l2 l3, get_all_functions st = l1 ++ da :: l2 ++ db :: l3.
Proof.
  intros Hvals Ha Hb _. split; [apply get_all_functions_concat|].
  rewrite get_all_functions_concat, Hvals.
  apply list_elem_of_split in Ha as (a1 & a2 & Ha).
  apply list_elem_of_split in Hb as (b1 & b2 & Hb).
  rewrite map_app; simpl. rewrite map_app; simpl.
  rewrite Ha, Hb.
  exists (concat (map PluginBase.get_functions q1) ++ a1),
         (a2 ++ concat (map PluginBase.get_functions q2) ++ b1),
         (b2 ++ concat (map PluginBase.get_functions q3)).
  repeat first [rewrite concat_app | rewrite <- app_assoc | progress simpl].
  reflexivity.
Qed.

Lemma catalog_lists_every_declaration_witness :
  get_all_functions Examples.registry_AB
  = [Examples.decl "foo" "foo of A"; Examples.decl "bar" "bar of B";
     Examples.decl "foo" "foo of B"]
  /\ exists l1 l2 l3,
       get_all_functions Examples.registry_AB
       = l1 ++ Examples.decl "foo" "foo of A" :: l2 ++ Examples.decl "foo" "foo of B" :: l3.
Proof.
  apply (catalog_lists_every_declaration Examples.registry_AB
           [] Examples.plugin_A [] Examples.plugin_B []).
  - reflexivity.
  - left.
  - right. left.
  - reflexivity.
Defined.

End Catalog.

(** ** Widgets *)

Section Widgets.
Import PluginManager.

Lemma keys_of_registry d :
  registry_ok d -> PyDict.keys d = map PluginBase.get_name (PyDict.values d).
Proof.
  intros [_ Hnames]. unfold PyDict.keys, PyDict.values.
  induction d as [|[k p] r IH]; simpl; [done|].
  rewrite (Hnames k p) by left. f_equal. apply IH.
  intros k' p' H. apply Hnames. by right.
Qed.

Lemma get_widget_info_items_acc ps acc :
  NoDup (PyDict.keys acc ++ map PluginBase.get_name ps) ->
  fold_left
    (fun widgets plugin =>
       match PluginBase.get_widget_info plugin with
       | Some widget_info =>
           if truthy (Some widget_info)
           then PyDict.set (PluginBase.get_name plugin) widget_info widgets
           else widgets
       | None => widgets
       end) ps acc
  = acc ++ widget_items ps.
Proof.
  revert acc. induction ps as [|p ps IH]; intros acc Hnd; simpl.
  - by rewrite app_nil_r.
  - simpl in Hnd. apply NoDup_app in Hnd as (Hacc & Hdisj & Hps).
    apply NoDup_cons in Hps as [Hp Hps].
    assert (Hrest : NoDup (PyDict.keys acc ++ map PluginBase.get_name ps)).
    { apply NoDup_app. split; [done|]. split; [|done].
      intros x Hx Hx'. apply (Hdisj x Hx). by right. }
    destruct (PluginBase.get_widget_info p) as [[|item more]|]; simpl;
      [by apply IH | | by apply IH].
    rewrite set_fresh.
    + rewrite IH; [by rewrite <- app_assoc|].
      unfold PyDict.keys. rewrite map_app; simpl. rewrite <- app_assoc; simpl.
      apply NoDup_app. split; [done|]. split.
      * intros x Hx Hx'. apply (Hdisj x Hx), Hx'.
      * by apply NoDup_cons.
    + apply get_None_keys. intros Hin. apply (Hdisj _ Hin). left.
Qed.

Lemma get_widget_info_items st :
  registry_ok (plugins st) ->
  get_widget_info st = widget_items (PyDict.values (plugins st)).
Proof.
  intros Hok. unfold get_widget_info.
  rewrite get_widget_info_items_acc; [done|]. simpl.
  rewrite <- keys_of_registry by done. apply Hok.
Qed.

Lemma elem_widget_items k w ps :
  (k, w) ∈ widget_items ps <->
  exists p, p ∈ ps /\ PluginBase.get_name p = k
            /\ PluginBase.get_widget_info p = Some w /\ w <> [].
Proof.
  induction ps as [|p ps IH]; simpl.
  - split; [intros H; by apply elem_of_nil in H|].
    intros (p & H & _). by apply elem_of_nil in H.
  - split.
    + intros H.
      destruct (PluginBase.get_widget_info p) as [[|item more]|] eqn:Hw.
      * apply IH in H as (q & Hq & ?). exists q. split; [by right | done].
      * apply elem_of_cons in H as [[= -> ->]|H].
        -- exists p. split; [left|]. by rewrite Hw.
        -- apply IH in H as (q & Hq & ?). exists q. split; [by right | done].
      * apply IH in H as (q & Hq & ?). exists q. split; [by right | done].
    + intros (q & Hq & Hname & Hw & Hne).
      apply elem_of_cons in Hq as [->|Hq].
      * rewrite Hw. destruct w; [done|]. rewrite Hname. left.
      * assert ((k, w) ∈ widget_items ps) by (apply IH; eauto).
        destruct (PluginBase.get_widget_info p) as [[|item more]|];
          [done | by right | done].
Qed.

Lemma keys_widget_items_sublist ps :
  sublist (PyDict.keys (widget_items ps)) (map PluginBase.get_name ps).
Proof.
  induction ps as [|p ps IH]; simpl; [done|].
  destruct (PluginBase.get_widget_info p) as [[|item more]|]; simpl.
  - by apply sublist_cons.
  - by apply sublist_skip.
  - by apply sublist_cons.
Qed.

Lemma len_widget_items ps :
  PyDict.len (widget_items ps)
  = length (List.filter (fun p => truthy (PluginBase.get_widget_info p)) ps).
Proof.
  unfold PyDict.len. induction ps as [|p ps IH]; simpl; [done|].
  destruct (PluginBase.get_widget_info p) as [[|item more]|]; simpl; by rewrite ?IH.
Qed.

(** C8. The widget mapping of a registry contains, keyed by capability
    identity, exactly the descriptors of the capabilities whose
    [get_widget_info] returns one (a mapping that is not empty); a
    capability that returns nothing gets no entry, so the mapping has as
    many entries as there are capabilities with a descriptor. *)
Theorem widgets_of_registry st :
  registry_ok (plugins st) ->
  (forall k w,
      PyDict.get k (get_widget_info st) = Some w <->
      exists p, PyDict.get k (plugins st) = Some p
                /\ PluginBase.get_widget_info p = Some w /\ w <> [])
  /\ PyDict.len (get_widget_info st)
     = length (List.filter (fun p => truthy (PluginBase.get_widget_info p))
                 (PyDict.values (plugins st))).
Proof.
  intros Hok. rewrite get_widget_info_items by done.
  pose proof Hok as [Hwf Hnames].
  assert (Hwfw : PyDict.wf (widget_items (PyDict.values (plugins st)))).
  { unfold PyDict.wf. eapply sublist_NoDup; [|apply keys_widget_items_sublist].
    rewrite <- keys_of_registry by done. exact Hwf. }
  split; [|apply len_widget_items].
  intros k w. split.
  - intros H. apply get_Some_elem, elem_widget_items in H as (p & Hp & Hname & Hw & Hne).
    exists p. split; [|done].
    unfold PyDict.values in Hp. apply list_elem_of_fmap in Hp as [[k' p'] [-> Hin]].
    simpl in *. rewrite (Hnames _ _ Hin) in Hname. subst k'. by apply elem_get.
  - intros (p & Hget & Hw & Hne). apply elem_get; [done|].
    apply elem_widget_items. exists p.
    apply get_Some_elem in Hget. split; [|by rewrite (Hnames _ _ Hget)].
    unfold PyDict.values. apply list_elem_of_fmap. by exists (k, p).
Qed.

Lemma widgets_of_registry_witness :
  PyDict.len (plugins Examples.registry_ABC) = 3
  /\ PyDict.len (get_widget_info Examples.registry_ABC) = 1
  /\ PyDict.get "B" (get_widget_info Examples.registry_ABC)
     = Some (Examples.widget "BWidget").
Proof.
  assert (Hok : registry_ok (plugins Examples.registry_ABC)).
  { change (registry_ok (register_all
              [Examples.plugin_A; Examples.plugin_B; Examples.plugin_C] PyDict.empty)).
    apply registry_ok_register_all, registry_ok_empty. }
  destruct (widgets_of_registry Examples.registry_ABC Hok) as [Hget Hlen].
  split; [reflexivity|]. split; [exact Hlen|].
  apply Hget. exists Examples.plugin_B.
  split; [reflexivity|]. split; [reflexivity|]. discriminate.
Defined.

End Widgets.

(** ** The function mapping and dispatch *)

Section Dispatch.
Import PluginManager.

Lemma in_list_elem k l : in_list k l = true <-> k ∈ l.
Proof.
  unfold in_list. induction l as [|x l IH]; simpl.
  - split; [done|]. intros H. by apply elem_of_nil in H.
  - rewrite orb_true_iff, IH, elem_of_cons.
    destruct (String.eqb_spec k x); split; intros [?|?]; auto; done.
Qed.

(** The inner loop, over the declarations of one plugin. *)
Lemma get_mapping_inner n plugin fs mapping :
  PyDict.get n
    (fold_left
       (fun mapping func_info =>
          let func_name := fd_name func_info in
          PyDict.set func_name
            {| entry_plugin := plugin; entry_func_name := func_name |} mapping)
       fs mapping)
  = if in_list n (map fd_name fs)
    then Some {| entry_plugin := plugin; entry_func_name := n |}
    else PyDict.get n mapping.
Proof.
  revert mapping. induction fs as [|f fs IH]; intros mapping; simpl; [done|].
  rewrite IH. unfold in_list at 2; simpl. fold (in_list n (map fd_name fs)).
  destruct (in_list n (map fd_name fs)); [by rewrite orb_true_r|].
  rewrite orb_false_r. destruct (String.eqb_spec n (fd_name f)) as [->|Hne].
  - apply get_set_eq.
  - apply get_set_ne. congruence.
Qed.

Lemma get_mapping_outer n ps mapping :
  PyDict.get n
    (fold_left
       (fun mapping plugin =>
          fold_left
            (fun mapping func_info =>
               let func_name := fd_name func_info in
               PyDict.set func_name
                 {| entry_plugin := plugin; entry_func_name := func_name |} mapping)
            (PluginBase.get_functions plugin) mapping)
       ps mapping)
  = match owner n ps with
    | Some p => Some {| entry_plugin := p; entry_func_name := n |}
    | None => PyDict.get n mapping
    end.
Proof.
  revert mapping. induction ps as [|p ps IH]; intros mapping; simpl; [done|].
  rewrite IH. destruct (owner n ps); [done|].
  rewrite get_mapping_inner. unfold declares. by destruct (in_list _ _).
Qed.

(** Each entry of the mapping holds its own pair: the name it is filed
    under, and the last plugin of the registry that declares that name. *)
Lemma get_function_mapping_entry st n :
  PyDict.get n (get_function_mapping st)
  = match owner n (PyDict.values (plugins st)) with
    | Some p => Some {| entry_plugin := p; entry_func_name := n |}
    | None => None
    end.
Proof. unfold get_function_mapping. by rewrite get_mapping_outer. Qed.

Lemma owner_Some n ps p :
  owner n ps = Some p ->
  exists before after,
    ps = before ++ p :: after /\ declares p n = true
    /\ forall q, q ∈ after -> declares q n = false.
Proof.
  revert p. induction ps as [|q ps IH]; intros p; simpl; [done|].
  destruct (owner n ps) as [p'|] eqn:Hown.
  - intros [= ->]. destruct (IH p eq_refl) as (before & after & -> & Hd & Hafter).
    by exists (q :: before), after.
  - destruct (declares q n) eqn:Hq; [|done]. intros [= ->].
    exists [], ps. split; [done|]. split; [done|].
    clear IH. induction ps as [|r ps IHps]; intros x Hx; [by apply elem_of_nil in Hx|].
    simpl in Hown. destruct (owner n ps) eqn:Hps; [done|].
    destruct (declares r n) eqn:Hr; [done|].
    apply elem_of_cons in Hx as [->|Hx]; [done|]. by apply IHps.
Qed.

Lemma owner_None n ps :
  owner n ps = None <-> forall q, q ∈ ps -> declares q n = false.
Proof.
  induction ps as [|p ps IH]; simpl.
  - split; [|done]. intros _ q Hq. by apply elem_of_nil in Hq.
  - destruct (owner n ps) eqn:Hown.
    + split; [done|]. intros H. apply IH. intros q Hq. apply H. by right.
    + destruct (declares p n) eqn:Hp.
      * split; [done|]. intros H. specialize (H p). rewrite Hp in H.
        assert (true = false) by (apply H; left). done.
      * split; [|done]. intros _ q Hq. apply elem_of_cons in Hq as [->|Hq]; [done|].
        by apply IH.
Qed.

(** A name is absent from the mapping exactly when no registered plugin
    declares it. *)
Lemma mapping_absent_iff st n :
  n ∉ PyDict.keys (get_function_mapping st) <->
  forall p, p ∈ PyDict.values (plugins st) -> declares p n = false.
Proof.
  rewrite <- get_None_keys, get_function_mapping_entry, <- owner_None.
  by destruct (owner n _).
Qed.

(** An argument mapping that uses neither of the lambda's two parameter
    names reaches [execute_function] whole, under the entry's own name. *)
Lemma call_entry_forwards e arguments :
  PyDict.get "plugin" arguments = None ->
  PyDict.get "func_name" arguments = None ->
  call_entry e arguments
  = call_execute_function (entry_plugin e) (VStr (entry_func_name e)) arguments.
Proof.
  intros Hp Hf. unfold call_entry. rewrite Hp, Hf.
  rewrite (remove_absent "plugin") by done. by rewrite remove_absent.
Qed.

(** Such a call is the owner's own answer when no argument is named [self]
    or [function_name] either. *)
Lemma call_execute_function_plain p fn kwargs :
  PyDict.get "self" kwargs = None ->
  PyDict.get "function_name" kwargs = None ->
  call_execute_function p fn kwargs = PluginBase.execute_function p fn kwargs.
Proof.
  intros Hs Hf. unfold call_execute_function, bind_kwargs; simpl.
  assert (Hk : check_keywords execute_function_sig (PyDict.keys kwargs) = None).
  { apply get_None_keys in Hs, Hf. revert Hs Hf. generalize (PyDict.keys kwargs).
    intros ks. induction ks as [|k ks IH]; intros Hs Hf; simpl; [done|].
    apply not_elem_of_cons in Hs as [Hs1 Hs2], Hf as [Hf1 Hf2].
    unfold in_list; simpl. rewrite orb_false_r.
    destruct (String.eqb_spec k "self"); [congruence|].
    destruct (String.eqb_spec k "function_name"); [congruence|]. simpl. by apply IH. }
  by rewrite Hk.
Qed.

(** C1. For every operation name that is absent from the dispatch mapping,
    dispatching it with any arguments returns the structured failure
    [{"error": "unknown operation: <name>"}] and raises nothing. *)
Theorem dispatch_unknown_operation st name arguments :
  name ∉ PyDict.keys (get_function_mapping st) ->
  dispatch st name arguments
  = Returned (error_payload ("unknown operation: " ++ name)).
Proof.
  intros Habs. apply get_None_keys in Habs. unfold dispatch. by rewrite Habs.
Qed.

Lemma dispatch_unknown_operation_witness :
  dispatch Examples.registry_AB "nonexistent_op" []
  = Returned [("error", VStr "unknown operation: nonexistent_op")].
Proof.
  apply (dispatch_unknown_operation Examples.registry_AB "nonexistent_op" []).
  apply get_None_keys. reflexivity.
Defined.

(** C4, at an input where the code departs from it: the entry filed
    under [translate_text], invoked with an argument mapping that has a key
    [func_name], does not forward that mapping to [translate_text]. The
    lambda takes the key as its own parameter, so the call goes to
    [execute_function("detect_language", text="hola")], whereas forwarding
    the mapping unchanged under the entry's own name answers otherwise. *)
Theorem entry_rebound_by_argument env :
  let st := {| plugins := [("translation", TranslationPlugin.new env)]; trace := [] |} in
  let arguments := [("func_name", VStr "detect_language"); ("text", VStr "hola")] in
  exists entry,
    PyDict.get "translate_text" (get_function_mapping st) = Some entry
    /\ entry_plugin entry = TranslationPlugin.new env
    /\ entry_func_name entry = "translate_text"
    /\ call_entry entry arguments
       = call_execute_function (entry_plugin entry) (VStr "detect_language")
           [("text", VStr "hola")]
    /\ call_execute_function (entry_plugin entry) (VStr (entry_func_name entry)) arguments
       = Raised (TypeError_unexpected "TranslationPlugin._translate_text" "func_name")
    /\ call_entry entry arguments
       <> call_execute_function (entry_plugin entry) (VStr (entry_func_name entry))
            arguments.
Proof.
  intros st arguments.
  exists {| entry_plugin := TranslationPlugin.new env; entry_func_name := "translate_text" |}.
  split; [reflexivity|]. split; [reflexivity|]. split; [reflexivity|].
  split; [reflexivity|]. split; [reflexivity|].
  subst arguments. unfold call_entry; simpl.
  unfold call_execute_function; simpl.
  unfold TranslationPlugin.execute_function; simpl.
  unfold TranslationPlugin._detect_language, TranslationPlugin._translate_text, method; simpl.
  destruct (run_body env _ _); discriminate.
Qed.

End Dispatch.

Section Forwarding.
Import PluginManager.

(** Away from the two parameter names of the lambda, every entry of the
    mapping forwards the argument mapping unchanged to the last plugin that
    declares the entry's name, under that name, and answers what that call
    answers. *)
Lemma mapped_entry_forwards st n entry arguments :
  PyDict.get n (get_function_mapping st) = Some entry ->
  PyDict.get "plugin" arguments = None ->
  PyDict.get "func_name" arguments = None ->
  owner n (PyDict.values (plugins st)) = Some (entry_plugin entry)
  /\ entry_func_name entry = n
  /\ call_entry entry arguments
     = call_execute_function (entry_plugin entry) (VStr n) arguments.
Proof.
  intros Hget Hp Hf. rewrite get_function_mapping_entry in Hget.
  destruct (owner n _) as [p|] eqn:Hown; [|done].
  injection Hget as <-. simpl. split; [done|]. split; [done|].
  by rewrite call_entry_forwards.
Qed.

End Forwarding.

(** ** The plugins' routers *)

Section Routers.
Variable env : Env.

(** A guarded handler whose arguments bind answers with a mapping, unless
    an exception that is not an [Exception] leaves its body. *)
Lemma guarded_method_returns sg prefix kwargs args :
  bind_kwargs sg kwargs = Returned args ->
  (exists d, method env sg (Some prefix) kwargs = Returned d)
  \/ (exists cls msg,
        run_body env (sig_name sg) args = BodyEscape cls msg
        /\ method env sg (Some prefix) kwargs = Raised (NonException cls msg)).
Proof.
  intros Hbind. unfold method. rewrite Hbind.
  destruct (run_body env _ _); eauto.
Qed.

(** C3, at inputs where the code departs from it: [execute_function]
    hands the argument mapping to the handler as keyword arguments, outside
    any [try]; when a required parameter is missing, or a keyword names no
    parameter, the [TypeError] of the call leaves [execute_function]. *)
Theorem binding_failure_escapes :
  call_execute_function (TranslationPlugin.new env) (VStr "translate_text") []
  = Raised (TypeError_missing "TranslationPlugin._translate_text"
              ["text"; "target_language"])
  /\ call_execute_function (QRCodeGeneratorPlugin.new env)
       (VStr "list_generated_qr_codes") [("limit", VInt 5)]
     = Raised (TypeError_unexpected "QRCodeGeneratorPlugin._list_generated_qr_codes"
                 "limit").
Proof. split; reflexivity. Qed.

Ltac not_declared Hnot :=
  repeat match goal with
    | |- context [String.eqb ?n ?lit] =>
        destruct (String.eqb_spec n lit) as [->|?];
        [ exfalso; apply Hnot; simpl;
          repeat first [ left; reflexivity | right ]
        | ]
    end.

(** C10. For each of the five plugins, [execute_function] with a name that
    is not among the plugin's declared functions, and no keyword argument,
    returns exactly [{"error": "Unknown function: <name>"}] and raises
    nothing; the wording differs from the dispatcher's
    ["unknown operation: <name>"]. *)
Theorem unknown_function_payload p name :
  p ∈ repository_plugins env ->
  name ∉ map fd_name (PluginBase.get_functions p) ->
  call_execute_function p (VStr name) []
  = Returned (error_payload ("Unknown function: " ++ name))
  /\ error_payload ("Unknown function: " ++ name)
     <> error_payload ("unknown operation: " ++ name).
Proof.
  intros Hp Hnot. split; [|intros H; discriminate H].
  unfold repository_plugins in Hp.
  repeat (apply elem_of_cons in Hp as [->|Hp]); [| | | | |by apply elem_of_nil in Hp];
    unfold call_execute_function; simpl;
    [ unfold DocumentAnalysisPlugin.execute_function
    | unfold EngineeringCalculatorsPlugin.execute_function
    | unfold ImageGenerationPlugin.execute_function
    | unfold QRCodeGeneratorPlugin.execute_function
    | unfold TranslationPlugin.execute_function ];
    unfold py_eq_str; not_declared Hnot; reflexivity.
Qed.

End Routers.

Lemma unknown_function_payload_witness :
  call_execute_function (TranslationPlugin.new Examples.env0) (VStr "translate") []
  = Returned [("error", VStr "Unknown function: translate")]
  /\ error_payload ("Unknown function: translate")
     <> error_payload ("unknown operation: translate").
Proof.
  apply (unknown_function_payload Examples.env0 (TranslationPlugin.new Examples.env0)
           "translate").
  - unfold repository_plugins. do 4 right. left.
  - simpl. intros H.
    repeat (apply elem_of_cons in H as [H|H]; [discriminate H|]).
    by apply elem_of_nil in H.
Defined.

(** ** The model at work *)

Section Runs.
Import PluginManager.

(** Discovery keeps the [.py] files that do not start with two underscores,
    without their extension, in the order of the listing. *)
Example plugin_files_sample :
  plugin_files ["__init__.py"; "translation.py"; "notes.txt"; "__pycache__";
                "qr_code_generator.py"; "x.pyc"]
  = ["translation"; "qr_code_generator"].
Proof. reflexivity. Qed.

(** [translation.py] yields its one plugin class, found after the members
    that are not plugin classes, [PluginBase] among them. *)
Example load_translation_module :
  let st := snd (load_plugin (Examples.host_of ["translation.py"]) "translation" init) in
  PyDict.keys (plugins st) = ["translation"]
  /\ printed (trace st) = [Loaded_plugin "translation"].
Proof. split; reflexivity. Qed.

(** A directory that cannot be listed aborts the load with the registry as
    it was. *)
Example load_unreadable_directory :
  load_plugins
    {| listdir := Raised (OtherException "FileNotFoundError" "plugins");
       import_module := Examples.imports |} init
  = (Raised (OtherException "FileNotFoundError" "plugins"), init).
Proof. reflexivity. Qed.

(** With A then B registered, [foo] is routed to B and [{"x": 1}] arrives
    as it was sent. *)
Example dispatch_foo_reaches_B :
  dispatch Examples.registry_AB "foo" [("x", VInt 1)]
  = Returned [("plugin", VStr "B"); ("function", VStr "foo");
              ("kwargs", VDict [("x", VInt 1)])].
Proof. reflexivity. Qed.

(** An argument named [plugin] replaces the bound plugin by a value that
    has no [execute_function]. *)
Example entry_called_with_plugin_key :
  dispatch Examples.registry_AB "foo" [("plugin", VStr "B")]
  = Raised (AttributeError "execute_function").
Proof. reflexivity. Qed.

(** A name that is in the mapping is forwarded to its owner, when the
    arguments use none of the lambda's parameter names. *)
Lemma dispatch_known_operation st name p arguments :
  owner name (PyDict.values (plugins st)) = Some p ->
  PyDict.get "plugin" arguments = None ->
  PyDict.get "func_name" arguments = None ->
  dispatch st name arguments = call_execute_function p (VStr name) arguments.
Proof.
  intros Hown Hp Hf. unfold dispatch.
  rewrite get_function_mapping_entry, Hown. by rewrite call_entry_forwards.
Qed.

End Runs.

(** * Part III. Further properties of the manager *)

(** ** Strings *)

Section StringFacts.
Local Open Scope string_scope.

Lemma string_length_append (a b : string) :
  String.length (a ++ b) = (String.length a + String.length b)%nat.
Proof. induction a as [|c a IH]; simpl; [done|]. by rewrite IH. Qed.

Lemma substring_all (s : string) : String.substring 0 (String.length s) s = s.
Proof. induction s as [|c s IH]; simpl; [done|]. by rewrite IH. Qed.

Lemma substring_append_r (a b : string) :
  String.substring (String.length a) (String.length b) (a ++ b) = b.
Proof. induction a as [|c a IH]; simpl; [apply substring_all | exact IH]. Qed.

Lemma substring_append_l (a b : string) :
  String.substring 0 (String.length a) (a ++ b) = a.
Proof.
  induction a as [|c a IH]; simpl; [by destruct b|]. by rewrite IH.
Qed.

Lemma substring_split (n : nat) (s : string) :
  (n <= String.length s)%nat ->
  s = String.substring 0 n s ++ String.substring n (String.length s - n) s.
Proof.
  revert n. induction s as [|c s IH]; intros n Hn; simpl in *.
  - assert (n = 0)%nat as -> by lia. done.
  - destruct n as [|n]; simpl.
    + by rewrite substring_all.
    + f_equal. apply IH. lia.
Qed.

Lemma endswith_append (a p : string) : endswith (a ++ p) p = true.
Proof.
  unfold endswith. rewrite string_length_append.
  replace (String.length a + String.length p - String.length p)%nat
    with (String.length a) by lia.
  rewrite substring_append_r, String.eqb_refl, andb_true_r.
  apply Nat.leb_le. lia.
Qed.

Lemma endswith_inv (s p : string) :
  endswith s p = true ->
  s = String.substring 0 (String.length s - String.length p) s ++ p.
Proof.
  unfold endswith. intros H. apply andb_true_iff in H as [Hlen Heq].
  apply Nat.leb_le in Hlen. apply String.eqb_eq in Heq.
  pose proof (substring_split (String.length s - String.length p) s) as Hs.
  replace (String.length s - (String.length s - String.length p))%nat
    with (String.length p) in Hs by lia.
  rewrite Heq in Hs. apply Hs. lia.
Qed.

Lemma strip_extension_append (n : string) : strip_extension (n ++ ".py") = n.
Proof.
  unfold strip_extension. rewrite string_length_append; simpl.
  replace (String.length n + 3 - 3)%nat with (String.length n) by lia.
  apply substring_append_l.
Qed.

End StringFacts.

(** ** Discovery *)

Section Discovery.
Import PluginManager.

(** X1. A name is discovered exactly when the listing of the directory
    holds the entry [<name>.py] and that entry does not start with two
    underscores. Only the name of an entry is tested, never what the entry
    is: [__init__.py] and entries that end otherwise are left out, and a
    directory called [pkgdir.py] is a candidate like a file of that name. *)
Theorem discovered_iff (filenames : list string) (n : string) :
  n ∈ plugin_files filenames <->
  String.append n ".py" ∈ filenames /\ startswith (String.append n ".py") "__" = false.
Proof.
  induction filenames as [|f r IH]; simpl.
  - split; [intros H; by apply elem_of_nil in H|].
    intros [H _]. by apply elem_of_nil in H.
  - destruct (endswith f ".py") eqn:Hend; simpl.
    + destruct (startswith f "__") eqn:Hst; simpl.
      * rewrite IH, elem_of_cons. split; [tauto|].
        intros [[<-|H] Hn]; [congruence | done].
      * rewrite elem_of_cons, IH, elem_of_cons. split.
        -- intros [->|[H1 H2]]; [|tauto].
           apply endswith_inv in Hend. unfold strip_extension. simpl in Hend.
           rewrite <- Hend. tauto.
        -- intros [[<-|H] Hn]; [|tauto].
           left. by rewrite strip_extension_append.
    + rewrite IH, elem_of_cons. split; [tauto|].
      intros [[<-|H] Hn]; [|done].
      by rewrite endswith_append in Hend.
Qed.

End Discovery.

(** ** Loads and the registry they leave *)

Section Reloading.
Import PluginManager.
Implicit Types (d : PyDict.t PluginBase.t) (p q : PluginBase.t).

Lemma mem_keys {V} k (d : PyDict.t V) : PyDict.mem k d = true <-> k ∈ PyDict.keys d.
Proof.
  unfold PyDict.mem. destruct (PyDict.get k d) eqn:Hg.
  - split; [|done]. intros _.
    apply get_Some_elem in Hg. unfold PyDict.keys.
    apply list_elem_of_fmap. by exists (k, v).
  - split; [done|]. intros H. by apply get_None_keys in Hg.
Qed.

Lemma elem_keys_set {V} k k' (v : V) (d : PyDict.t V) :
  k' ∈ PyDict.keys (PyDict.set k v d) <-> k' ∈ PyDict.keys d \/ k' = k.
Proof.
  rewrite keys_set. destruct (PyDict.mem k d) eqn:Hm.
  - apply mem_keys in Hm. split; [by left|]. by intros [?| ->].
  - rewrite elem_of_app, list_elem_of_singleton. done.
Qed.

Lemma keys_set_prefix {V} k (v : V) (d : PyDict.t V) :
  PyDict.keys d `prefix_of` PyDict.keys (PyDict.set k v d).
Proof.
  rewrite keys_set. destruct (PyDict.mem k d); [done|]. by apply prefix_app_r.
Qed.

Lemma keys_register_all_prefix ps d :
  PyDict.keys d `prefix_of` PyDict.keys (register_all ps d).
Proof.
  revert d. induction ps as [|p ps IH]; intros d; simpl; [done|].
  etrans; [apply keys_set_prefix | apply IH].
Qed.

Lemma elem_keys_register_all k ps d :
  k ∈ PyDict.keys (register_all ps d) <->
  k ∈ PyDict.keys d \/ exists p, p ∈ ps /\ PluginBase.get_name p = k.
Proof.
  revert d. induction ps as [|p ps IH]; intros d; simpl.
  - split; [by left|]. intros [?|(p & H & _)]; [done|]. by apply elem_of_nil in H.
  - rewrite IH, elem_keys_set. split.
    + intros [[?| ->]|(q & Hq & Hn)].
      * by left.
      * right. exists p. split; [left | done].
      * right. exists q. split; [by right | done].
    + intros [?|(q & Hq & Hn)]; [by left; left|].
      apply elem_of_cons in Hq as [->|Hq].
      * left. by right.
      * right. by exists q.
Qed.

Lemma get_register_all_cases k ps d :
  PyDict.get k (register_all ps d) = PyDict.get k d
  \/ exists p, p ∈ ps /\ PluginBase.get_name p = k
               /\ PyDict.get k (register_all ps d) = Some p.
Proof.
  revert d. induction ps as [|p ps IH]; intros d; [by left|].
  change (register_all (p :: ps) d)
    with (register_all ps (PyDict.set (PluginBase.get_name p) p d)).
  destruct (IH (PyDict.set (PluginBase.get_name p) p d)) as [Hsame|(q & Hq & Hn & Hg)].
  - destruct (String.string_dec (PluginBase.get_name p) k) as [Heq|Hne].
    + right. exists p. split; [left|]. split; [done|].
      rewrite Hsame, <- Heq. apply get_set_eq.
    + left. rewrite Hsame. by apply get_set_ne.
  - right. exists q. split; [by right | done].
Qed.

Lemma keys_register_all_known ps d :
  (forall p, p ∈ ps -> PluginBase.get_name p ∈ PyDict.keys d) ->
  PyDict.keys (register_all ps d) = PyDict.keys d.
Proof.
  revert d. induction ps as [|p ps IH]; intros d Hin; simpl; [done|].
  assert (Hk : PyDict.keys (PyDict.set (PluginBase.get_name p) p d) = PyDict.keys d).
  { rewrite keys_set. assert (Hp : PluginBase.get_name p ∈ PyDict.keys d) by (apply Hin; left).
    apply mem_keys in Hp. by rewrite Hp. }
  rewrite IH; [done|]. intros q Hq. rewrite Hk. apply Hin. by right.
Qed.

Lemma elem_load_lines_loaded host plugin_names k :
  Loaded_plugin k ∈ load_lines host plugin_names <->
  exists p, p ∈ registrations host plugin_names /\ PluginBase.get_name p = k.
Proof.
  induction plugin_names as [|n r IH]; simpl.
  - split; [intros H; by apply elem_of_nil in H|].
    intros (p & H & _). by apply elem_of_nil in H.
  - destruct (resolve host n) as [p|e| |e].
    + rewrite elem_of_cons, IH. split.
      * intros [[= ->]|(q & Hq & Hn)]; [exists p; split; [left | done]|].
        exists q. split; [by right | done].
      * intros (q & Hq & Hn). apply elem_of_cons in Hq as [->|Hq]; [left; by rewrite Hn|].
        right. by exists q.
    + rewrite elem_of_cons, IH. split; [intros [?|?]; done | by right].
    + exact IH.
    + split; [intros H; by apply elem_of_nil in H|].
      intros (q & Hq & _). by apply elem_of_nil in Hq.
Qed.

(** X2. A load never removes or reorders what the registry holds: the keys
    before the load are a prefix of the keys after it; a key under which
    this load registered nothing keeps the instance it had; and a key under
    which it did holds the last instance the load registered under it. This
    is so also when the load is cut short. *)
Theorem load_keeps_registrations host st :
  let st' := snd (load_plugins host st) in
  PyDict.keys (plugins st) `prefix_of` PyDict.keys (plugins st')
  /\ (forall k,
        (forall p, p ∈ load_registrations host -> PluginBase.get_name p <> k) ->
        PyDict.get k (plugins st') = PyDict.get k (plugins st))
  /\ (forall earlier p later,
        load_registrations host = earlier ++ p :: later ->
        (forall q, q ∈ later -> PluginBase.get_name q <> PluginBase.get_name p) ->
        PyDict.get (PluginBase.get_name p) (plugins st') = Some p).
Proof.
  intros st'. subst st'. unfold load_registrations.
  destruct (listdir host) as [filenames|e] eqn:Hls.
  - rewrite (load_plugins_run _ _ _ Hls); simpl. split; [|split].
    + apply keys_register_all_prefix.
    + intros k Hk. by apply get_register_all_other.
    + intros earlier p later -> Hlater. by apply get_register_all_last.
  - rewrite (load_plugins_abort _ _ _ Hls); simpl. split; [done|]. split; [done|].
    intros earlier p later H. by destruct earlier.
Qed.

(** X3. After the load of a new manager, the registry and the output agree:
    a name is a key of the registry exactly when the line
    [Loaded plugin: <name>] was printed. *)
Theorem registry_matches_output host k :
  let st' := snd (load_plugins host init) in
  k ∈ PyDict.keys (plugins st') <-> Loaded_plugin k ∈ printed (trace st').
Proof.
  intros st'. subst st'. destruct (listdir host) as [filenames|e] eqn:Hls.
  - rewrite (load_plugins_run _ _ _ Hls); simpl.
    rewrite printed_load_trace, elem_keys_register_all, elem_load_lines_loaded.
    split; [intros [H|H]; [by apply elem_of_nil in H | done] | by right].
  - rewrite (load_plugins_abort _ _ _ Hls); simpl.
    split; intros H; by apply elem_of_nil in H.
Qed.

(** X4. Loading a second time from a directory and an import system that
    answer as before adds no key and moves none, and prints the same lines
    once more. *)
Theorem reload_is_stable host :
  let st1 := snd (load_plugins host init) in
  let st2 := snd (load_plugins host st1) in
  PyDict.keys (plugins st2) = PyDict.keys (plugins st1)
  /\ printed (trace st2) = printed (trace st1) ++ printed (trace st1).
Proof.
  intros st1 st2. subst st1 st2. destruct (listdir host) as [filenames|e] eqn:Hls.
  - rewrite !(load_plugins_run _ _ _ Hls); simpl. split.
    + apply keys_register_all_known. intros p Hp.
      apply elem_keys_register_all. right. by exists p.
    + by rewrite printed_app.
  - by rewrite !(load_plugins_abort _ _ _ Hls).
Qed.

(** X5. A load raises exactly when the plugin directory cannot be listed,
    or when an import or a constructor raises an exception that is not an
    [Exception], which [except Exception] lets through; it raises that
    exception. When the listing fails, the registry and the output are as
    they were. An [Exception] raised by an import or by a constructor never
    makes the load raise. *)
Theorem load_raises_iff host st e :
  (fst (load_plugins host st) = Raised e <->
   listdir host = Raised e
   \/ exists filenames,
        listdir host = Returned filenames
        /\ load_abort host (plugin_files filenames) = Some e)
  /\ (listdir host = Raised e -> snd (load_plugins host st) = st)
  /\ (forall filenames,
        load_abort host (plugin_files filenames) = Some e ->
        is_Exception e = false
        /\ exists n, n ∈ plugin_files filenames /\ resolve host n = LoadAborted e).
Proof.
  split; [|split; [|intros filenames; apply load_abort_Some]].
  - destruct (listdir host) as [filenames|e'] eqn:Hls.
    + rewrite (load_plugins_run _ _ _ Hls); simpl. split.
      * intros H. right. exists filenames. split; [done|].
        destruct (load_abort host (plugin_files filenames)); [congruence | done].
      * intros [H|(fs & [= <-] & Habort)]; [done|]. by rewrite Habort.
    + rewrite (load_plugins_abort _ _ _ Hls); simpl. split.
      * intros [= ->]. by left.
      * intros [[= ->]|(fs & H & _)]; done.
  - intros Hls. by rewrite (load_plugins_abort _ _ _ Hls).
Qed.

End Reloading.

(** ** The mapping against the catalog *)

Section MappingAndCatalog.
Import PluginManager.

Lemma declares_elem p n :
  declares p n = true <-> n ∈ map fd_name (PluginBase.get_functions p).
Proof. unfold declares. apply in_list_elem. Qed.

Lemma elem_catalog_names st n :
  n ∈ map fd_name (get_all_functions st) <->
  exists p, p ∈ PyDict.values (plugins st) /\ declares p n = true.
Proof.
  rewrite get_all_functions_concat. generalize (PyDict.values (plugins st)).
  intros ps. induction ps as [|p ps IH]; simpl.
  - split; [intros H; by apply elem_of_nil in H|].
    intros (p & H & _). by apply elem_of_nil in H.
  - rewrite map_app, elem_of_app, IH, <- declares_elem. split.
    + intros [H|(q & Hq & Hd)]; [exists p; split; [left | done]|].
      exists q. split; [by right | done].
    + intros (q & Hq & Hd). apply elem_of_cons in Hq as [->|Hq]; [by left|].
      right. by exists q.
Qed.

(** X6. The function mapping and the catalog name the same operations: a
    name is a key of the mapping exactly when the catalog has a declaration
    of that name. *)
Theorem mapping_keys_are_catalog_names st n :
  n ∈ PyDict.keys (get_function_mapping st) <-> n ∈ map fd_name (get_all_functions st).
Proof.
  rewrite elem_catalog_names. split.
  - intros Hin.
    destruct (owner n (PyDict.values (plugins st))) as [p|] eqn:Hown.
    + apply owner_Some in Hown as (before & after & Hvals & Hd & _).
      exists p. split; [|done]. rewrite Hvals. apply elem_of_app. right. left.
    + exfalso. revert Hin. apply mapping_absent_iff. by apply owner_None.
  - intros (p & Hp & Hd).
    destruct (owner n (PyDict.values (plugins st))) as [q|] eqn:Hown.
    + apply mem_keys. unfold PyDict.mem.
      by rewrite get_function_mapping_entry, Hown.
    + rewrite owner_None in Hown. by rewrite (Hown p Hp) in Hd.
Qed.

(** X7. Last write wins in the function mapping: the entry under a name
    carries that name and the last plugin, in the iteration order of the
    registry, that declares it; no plugin after it declares the name. *)
Theorem mapping_entry_is_last_declarer st n entry :
  PyDict.get n (get_function_mapping st) = Some entry ->
  entry_func_name entry = n
  /\ exists before after,
       PyDict.values (plugins st) = before ++ entry_plugin entry :: after
       /\ n ∈ map fd_name (PluginBase.get_functions (entry_plugin entry))
       /\ forall q, q ∈ after -> n ∉ map fd_name (PluginBase.get_functions q).
Proof.
  rewrite get_function_mapping_entry.
  destruct (owner n _) as [p|] eqn:Hown; [|done].
  intros [= <-]; simpl. split; [done|].
  apply owner_Some in Hown as (before & after & Hvals & Hd & Hafter).
  exists before, after. split; [done|]. split; [by apply declares_elem|].
  intros q Hq Hin. apply declares_elem in Hin. by rewrite (Hafter q Hq) in Hin.
Qed.

Lemma mapping_entry_is_last_declarer_witness :
  PyDict.get "foo" (get_function_mapping Examples.registry_AB)
  = Some {| entry_plugin := Examples.plugin_B; entry_func_name := "foo" |}
  /\ exists before after,
       PyDict.values (plugins Examples.registry_AB)
       = before ++ Examples.plugin_B :: after
       /\ "foo" ∈ map fd_name (PluginBase.get_functions Examples.plugin_B)
       /\ forall q, q ∈ after -> "foo" ∉ map fd_name (PluginBase.get_functions q).
Proof.
  split; [reflexivity|].
  apply (mapping_entry_is_last_declarer Examples.registry_AB "foo"
           {| entry_plugin := Examples.plugin_B; entry_func_name := "foo" |}).
  reflexivity.
Defined.

End MappingAndCatalog.

(** ** Declared schemas against the handlers' parameters *)

Section Schemas.

Lemma check_keywords_accepts sg ks :
  forallb (accepts sg) ks = true -> check_keywords sg ks = None.
Proof.
  induction ks as [|k ks IH]; simpl; [done|].
  intros H. apply andb_true_iff in H as [Hk Hks].
  unfold accepts in Hk. apply andb_true_iff in Hk as [Hb Ha].
  apply negb_true_iff in Hb. rewrite Hb, Ha. by apply IH.
Qed.

Lemma bind_kwargs_accepts sg kwargs :
  forallb (accepts sg) (PyDict.keys kwargs) = true ->
  forallb (fun r => PyDict.mem r kwargs) (sig_required sg) = true ->
  bind_kwargs sg kwargs = Returned kwargs.
Proof.
  intros Hks Hreq. unfold bind_kwargs. rewrite check_keywords_accepts by done.
  assert (Hnone : List.filter (fun p => negb (PyDict.mem p kwargs)) (sig_required sg) = []).
  { revert Hreq. generalize (sig_required sg). intros rs.
    induction rs as [|r rs IH]; simpl; [done|].
    intros H. apply andb_true_iff in H as [Hr Hrs]. rewrite Hr; simpl. by apply IH. }
  by rewrite Hnone.
Qed.

(** When every property of a schema is a keyword the callee accepts, and
    the callee requires nothing the schema does not, a conforming argument
    mapping binds. *)
Lemma conforms_binds sc sg kwargs :
  conforms sc kwargs = true ->
  forallb (accepts sg) (PyDict.keys (sc_properties sc)) = true ->
  forallb (fun r => in_list r (sc_required sc)) (sig_required sg) = true ->
  bind_kwargs sg kwargs = Returned kwargs.
Proof.
  unfold conforms. intros Hc Hprops Hreq.
  apply andb_true_iff in Hc as [Hkeys Hrequired].
  rewrite forallb_forall in Hkeys, Hrequired, Hprops, Hreq.
  apply bind_kwargs_accepts; apply forallb_forall.
  - intros k Hk. apply Hprops. apply list_elem_of_In, mem_keys. by apply Hkeys.
  - intros r Hr. apply Hrequired. apply list_elem_of_In, in_list_elem. by apply Hreq.
Qed.

Variable env : Env.

Ltac routed :=
  match goal with
  | Hc : conforms _ ?kwargs = true |- _ =>
      refine (ex_intro _ _ (ex_intro _ _ (conj _ (conj _ _))));
      [ | unfold call_execute_function;
          rewrite (conforms_binds _ execute_function_sig kwargs Hc eq_refl eq_refl);
          simpl;
          unfold DocumentAnalysisPlugin.execute_function,
            EngineeringCalculatorsPlugin.execute_function,
            ImageGenerationPlugin.execute_function,
            QRCodeGeneratorPlugin.execute_function,
            TranslationPlugin.execute_function;
          simpl; reflexivity
        | ];
      [ eapply conforms_binds; [exact Hc | reflexivity | reflexivity]
      | simpl; first [ discriminate | intros _; repeat first [ left; reflexivity | right ] ] ]
  end.

(** Each declared function is routed to a handler whose parameters are the
    properties of its schema. *)
Lemma declared_function_routed p f kwargs :
  p ∈ repository_plugins env ->
  f ∈ PluginBase.get_functions p ->
  conforms (fd_parameters f) kwargs = true ->
  exists sg guard,
    bind_kwargs sg kwargs = Returned kwargs
    /\ call_execute_function p (VStr (fd_name f)) kwargs = method env sg guard kwargs
    /\ (guard = None -> fd_name f ∈ unguarded_functions).
Proof.
  intros Hp Hf Hc. unfold repository_plugins in Hp.
  repeat (apply elem_of_cons in Hp as [->|Hp]); [| | | | |by apply elem_of_nil in Hp];
    simpl in Hf;
    repeat (apply elem_of_cons in Hf as [->|Hf]);
    try (by apply elem_of_nil in Hf);
    routed.
Qed.

(** X8. For each of the five plugins and each function it declares, an
    argument mapping that conforms to the declared schema (keys among the
    properties, required ones present) binds to the handler's parameters:
    the call raises no [TypeError] of its own and the handler receives the
    mapping as it is. *)
Theorem conforming_arguments_bind p f kwargs :
  p ∈ repository_plugins env ->
  f ∈ PluginBase.get_functions p ->
  conforms (fd_parameters f) kwargs = true ->
  exists sg guard,
    bind_kwargs sg kwargs = Returned kwargs
    /\ call_execute_function p (VStr (fd_name f)) kwargs = method env sg guard kwargs.
Proof.
  intros Hp Hf Hc.
  destruct (declared_function_routed p f kwargs Hp Hf Hc) as (sg & guard & ? & ? & _).
  by exists sg, guard.
Qed.

(** X9. With arguments that conform to the declared schema, every declared
    function other than [get_supported_languages], [list_documents] and
    [delete_document] turns each [Exception] of its handler into a mapping:
    the call returns a mapping, or lets through an exception that is not an
    [Exception] and that left the handler's body ([CancelledError],
    [KeyboardInterrupt], [SystemExit]); it raises no [Exception]. *)
Theorem conforming_call_returns p f kwargs :
  p ∈ repository_plugins env ->
  f ∈ PluginBase.get_functions p ->
  conforms (fd_parameters f) kwargs = true ->
  fd_name f ∉ unguarded_functions ->
  (exists d, call_execute_function p (VStr (fd_name f)) kwargs = Returned d)
  \/ (exists h cls msg,
        run_body env h kwargs = BodyEscape cls msg
        /\ call_execute_function p (VStr (fd_name f)) kwargs
           = Raised (NonException cls msg)).
Proof.
  intros Hp Hf Hc Hguarded.
  destruct (declared_function_routed p f kwargs Hp Hf Hc) as (sg & guard & Hb & -> & Hg).
  destruct guard as [prefix|]; [|exfalso; by apply Hguarded, Hg].
  destruct (guarded_method_returns env sg prefix kwargs kwargs Hb)
    as [Hret|(cls & msg & Hbody & Hraise)]; [by left|].
  right. by exists (sig_name sg), cls, msg.
Qed.

End Schemas.

Lemma conforming_arguments_bind_witness :
  let kwargs := [("text", VStr "hola"); ("target_language", VStr "en")] in
  exists sg guard,
    bind_kwargs sg kwargs = Returned kwargs
    /\ call_execute_function (TranslationPlugin.new Examples.env0) (VStr "translate_text")
         kwargs
       = method Examples.env0 sg guard kwargs.
Proof.
  apply (conforming_arguments_bind Examples.env0 (TranslationPlugin.new Examples.env0)
           (hd (Examples.decl "" "") TranslationPlugin.get_functions)).
  - unfold repository_plugins. do 4 right. left.
  - left.
  - reflexivity.
Defined.

Lemma conforming_call_returns_witness :
  (exists d,
      call_execute_function (QRCodeGeneratorPlugin.new Examples.env0)
        (VStr "generate_wifi_qr") [("ssid", VStr "home"); ("hidden", VBool true)]
      = Returned d)
  \/ (exists h cls msg,
        run_body Examples.env0 h [("ssid", VStr "home"); ("hidden", VBool true)]
        = BodyEscape cls msg
        /\ call_execute_function (QRCodeGeneratorPlugin.new Examples.env0)
             (VStr "generate_wifi_qr") [("ssid", VStr "home"); ("hidden", VBool true)]
           = Raised (NonException cls msg)).
Proof.
  apply (conforming_call_returns Examples.env0 (QRCodeGeneratorPlugin.new Examples.env0)
           (nth 2 QRCodeGeneratorPlugin.get_functions (Examples.decl "" ""))).
  - unfold repository_plugins. do 3 right. left.
  - right. right. left.
  - reflexivity.
  - unfold unguarded_functions. simpl. intros H.
    repeat (apply elem_of_cons in H as [H|H]; [discriminate H|]).
    by apply elem_of_nil in H.
Defined.

(** ** Arguments that do not bind *)

Section Binding.

Lemma check_keywords_rejects sg ks :
  forallb (accepts sg) ks = false ->
  exists e, check_keywords sg ks = Some e /\ is_binding_error e = true.
Proof.
  induction ks as [|k ks IH]; simpl; [done|].
  intros H. apply andb_false_iff in H. unfold accepts in H at 1.
  destruct (in_list k (sig_bound sg)); [by eexists|]. simpl in H.
  destruct (in_list k (sig_required sg) || in_list k (sig_optional sg) || sig_var_kw sg);
    [|by eexists].
  destruct H as [H|H]; [done|]. by apply IH.
Qed.

Lemma bind_kwargs_raised sg kwargs e :
  bind_kwargs sg kwargs = Raised e -> is_binding_error e = true.
Proof.
  unfold bind_kwargs.
  destruct (forallb (accepts sg) (PyDict.keys kwargs)) eqn:Hk.
  - rewrite check_keywords_accepts by done.
    destruct (List.filter _ _); [done|]. by intros [= <-].
  - destruct (check_keywords_rejects _ _ Hk) as (e' & -> & He). by intros [= <-].
Qed.

Lemma bind_kwargs_returned sg kwargs args :
  bind_kwargs sg kwargs = Returned args -> args = kwargs.
Proof.
  unfold bind_kwargs. destruct (check_keywords _ _); [done|].
  destruct (List.filter _ _); [|done]. by intros [= <-].
Qed.

Lemma bind_kwargs_missing sg kwargs :
  forallb (fun r => PyDict.mem r kwargs) (sig_required sg) = false ->
  exists e, bind_kwargs sg kwargs = Raised e.
Proof.
  intros Hreq. unfold bind_kwargs. destruct (check_keywords _ _); [by eexists|].
  assert (Hne : List.filter (fun p => negb (PyDict.mem p kwargs)) (sig_required sg) <> []).
  { revert Hreq. generalize (sig_required sg). intros rs.
    induction rs as [|r rs IH]; simpl; [done|].
    destruct (PyDict.mem r kwargs); simpl; [exact IH | done]. }
  destruct (List.filter _ _); [done | by eexists].
Qed.

(** A handler without a [**] parameter, whose parameters are all properties
    of the schema and which requires what the schema requires, rejects
    every argument mapping that does not conform. *)
Lemma nonconforming_rejected env sc sg guard kwargs :
  conforms sc kwargs = false ->
  sig_var_kw sg = false ->
  forallb (fun k => PyDict.mem k (sc_properties sc)) (sig_required sg ++ sig_optional sg)
  = true ->
  forallb (fun r => in_list r (sig_required sg)) (sc_required sc) = true ->
  exists e, method env sg guard kwargs = Raised e /\ is_binding_error e = true.
Proof.
  intros Hc Hvar Hparams Hreq.
  assert (exists e, bind_kwargs sg kwargs = Raised e) as [e He].
  { unfold conforms in Hc. apply andb_false_iff in Hc as [Hkeys|Hmissing].
    - assert (Hrej : forallb (accepts sg) (PyDict.keys kwargs) = false).
      { apply not_true_iff_false. intros Hacc. apply not_true_iff_false in Hkeys.
        apply Hkeys. rewrite forallb_forall in Hacc |- *. intros k Hk.
        specialize (Hacc k Hk). unfold accepts in Hacc. rewrite Hvar, orb_false_r in Hacc.
        apply andb_true_iff in Hacc as [_ Hin]. rewrite forallb_forall in Hparams.
        apply Hparams. apply in_or_app.
        apply orb_true_iff in Hin as [Hin|Hin]; apply in_list_elem, list_elem_of_In in Hin;
          [by left | by right]. }
      unfold bind_kwargs. destruct (check_keywords_rejects _ _ Hrej) as (e & -> & _).
      by eexists.
    - apply bind_kwargs_missing. apply not_true_iff_false. intros Hall.
      apply not_true_iff_false in Hmissing. apply Hmissing.
      rewrite forallb_forall in Hall, Hreq |- *. intros r Hr.
      apply Hall. apply list_elem_of_In, in_list_elem. by apply Hreq. }
  exists e. split; [|by eapply bind_kwargs_raised].
  unfold method. by rewrite He.
Qed.

Variable env : Env.

Ltac rejected Hc :=
  unfold DocumentAnalysisPlugin.execute_function,
    ImageGenerationPlugin.execute_function,
    QRCodeGeneratorPlugin.execute_function,
    TranslationPlugin.execute_function;
  simpl;
  eapply nonconforming_rejected; [exact Hc | reflexivity | reflexivity | reflexivity].

(** X10. For every function declared by the document, image, QR-code and
    translation plugins, an argument mapping that does not conform to the
    declared schema (a key that is no property, or a required property
    without a value) makes the call raise a [TypeError]: the handler is
    never entered and no [{"error": ...}] mapping is returned. *)
Theorem nonconforming_arguments_raise p f kwargs :
  p ∈ repository_plugins env ->
  PluginBase.get_name p <> "engineering_calculators" ->
  f ∈ PluginBase.get_functions p ->
  conforms (fd_parameters f) kwargs = false ->
  exists e,
    call_execute_function p (VStr (fd_name f)) kwargs = Raised e
    /\ is_binding_error e = true.
Proof.
  intros Hp Hname Hf Hc. unfold call_execute_function.
  destruct (bind_kwargs execute_function_sig kwargs) as [args|e] eqn:Hb;
    [|exists e; split; [done | by eapply bind_kwargs_raised]].
  apply bind_kwargs_returned in Hb as ->.
  unfold repository_plugins in Hp.
  repeat (apply elem_of_cons in Hp as [->|Hp]); [| | | | |by apply elem_of_nil in Hp];
    try (by exfalso; apply Hname);
    simpl in Hf;
    repeat (apply elem_of_cons in Hf as [->|Hf]);
    try (by apply elem_of_nil in Hf);
    simpl; rejected Hc.
Qed.

End Binding.

Lemma nonconforming_arguments_raise_witness :
  exists e,
    call_execute_function (ImageGenerationPlugin.new Examples.env0) (VStr "generate_image")
      [("prompt", VStr "a cat"); ("seed", VInt 7)]
    = Raised e
    /\ is_binding_error e = true.
Proof.
  apply (nonconforming_arguments_raise Examples.env0 (ImageGenerationPlugin.new Examples.env0)
           (hd (Examples.decl "" "") ImageGenerationPlugin.get_functions)).
  - unfold repository_plugins. do 2 right. left.
  - discriminate.
  - left.
  - reflexivity.
Defined.

(** ** Reserved argument names, and the order of the widgets *)

Section Reserved.
Import PluginManager.

Lemma check_keywords_reserved ks :
  (exists k, k ∈ ks /\ in_list k ["self"; "function_name"] = true) ->
  exists k,
    check_keywords execute_function_sig ks = Some (TypeError_multiple "execute_function" k)
    /\ in_list k ["self"; "function_name"] = true.
Proof.
  induction ks as [|k ks IH]; intros (k' & Hin & Hres); [by apply elem_of_nil in Hin|].
  change (check_keywords execute_function_sig (k :: ks))
    with (if in_list k ["self"; "function_name"]
          then Some (TypeError_multiple "execute_function" k)
          else check_keywords execute_function_sig ks).
  destruct (in_list k ["self"; "function_name"]) eqn:Hk; [by exists k|].
  apply elem_of_cons in Hin as [->|Hin]; [congruence|].
  apply IH. by exists k'.
Qed.

(** X12. An argument named [self] or [function_name] never reaches a
    plugin: for every plugin and every function name, the call
    [execute_function(name, **kwargs)] raises the [TypeError] of a
    parameter given twice, and the plugin's code does not run. *)
Theorem reserved_argument_names_raise (p : PluginBase.t) (function_name : PyVal)
    (kwargs : Kwargs) :
  PyDict.mem "self" kwargs || PyDict.mem "function_name" kwargs = true ->
  exists k,
    call_execute_function p function_name kwargs
    = Raised (TypeError_multiple "execute_function" k)
    /\ (k = "self" \/ k = "function_name").
Proof.
  intros H.
  destruct (check_keywords_reserved (PyDict.keys kwargs)) as (k & Hk & Hres).
  { apply orb_true_iff in H as [H|H]; apply mem_keys in H;
      [exists "self" | exists "function_name"]; by split. }
  exists k. split.
  - unfold call_execute_function, bind_kwargs. by rewrite Hk.
  - apply in_list_elem in Hres. apply elem_of_cons in Hres as [->|Hres]; [by left|].
    apply list_elem_of_singleton in Hres. by right.
Qed.

Lemma reserved_argument_names_raise_witness :
  exists k,
    call_execute_function Examples.plugin_A (VStr "foo")
      [("x", VInt 1); ("function_name", VStr "bar")]
    = Raised (TypeError_multiple "execute_function" k)
    /\ (k = "self" \/ k = "function_name").
Proof.
  apply (reserved_argument_names_raise Examples.plugin_A (VStr "foo")
           [("x", VInt 1); ("function_name", VStr "bar")]).
  reflexivity.
Defined.

(** X13. The widget mapping follows the registry: its keys are keys of the
    registry, in the order of the registry. *)
Theorem widgets_follow_registry_order st :
  registry_ok (plugins st) ->
  PyDict.keys (get_widget_info st) `sublist_of` PyDict.keys (plugins st).
Proof.
  intros Hok. rewrite get_widget_info_items, keys_of_registry by done.
  apply keys_widget_items_sublist.
Qed.

Lemma widgets_follow_registry_order_witness :
  PyDict.keys (get_widget_info Examples.registry_ABC)
    `sublist_of` PyDict.keys (plugins Examples.registry_ABC).
Proof.
  apply (widgets_follow_registry_order Examples.registry_ABC).
  change (registry_ok (register_all
            [Examples.plugin_A; Examples.plugin_B; Examples.plugin_C] PyDict.empty)).
  apply registry_ok_register_all, registry_ok_empty.
Defined.

End Reserved.

(** ** The document store *)

Section DocumentStore.
Import Documents.
Variable python : Python.

Lemma get_remove_eq {V} k (d : PyDict.t V) : PyDict.get k (PyDict.remove k d) = None.
Proof.
  induction d as [|[k' v] r IH]; simpl; [done|].
  destruct (String.eqb_spec k' k) as [->|Hne]; [exact IH|].
  simpl. by destruct (String.eqb_spec k' k).
Qed.

Lemma remove_app {V} k (d1 d2 : PyDict.t V) :
  PyDict.remove k (d1 ++ d2) = PyDict.remove k d1 ++ PyDict.remove k d2.
Proof.
  induction d1 as [|[k' v] r IH]; simpl; [done|].
  destruct (String.eqb k' k); [exact IH|]. simpl. by rewrite IH.
Qed.

(** X14. Deleting a stored document answers with success, removes that
    document and leaves every other one as it was; deleting the same
    identifier again answers [{"error": "Document not found"}] and changes
    nothing. *)
Theorem delete_document_once (documents : store) (doc_id : string) :
  PyDict.mem doc_id documents = true ->
  let first := _delete_document python (VStr doc_id) documents in
  let second := _delete_document python (VStr doc_id) (snd first) in
  fst first = Returned [("success", VBool true); ("message", VStr "Document deleted")]
  /\ PyDict.get doc_id (snd first) = None
  /\ (forall k, k <> doc_id -> PyDict.get k (snd first) = PyDict.get k documents)
  /\ second = (Returned (error_payload "Document not found"), snd first).
Proof.
  intros Hmem first second. subst first second.
  assert (Hfirst : _delete_document python (VStr doc_id) documents
                   = (Returned [("success", VBool true); ("message", VStr "Document deleted")],
                      PyDict.remove doc_id documents)).
  { unfold _delete_document; simpl. by rewrite Hmem. }
  rewrite Hfirst; simpl.
  split; [done|]. split; [apply get_remove_eq|]. split.
  - intros k Hk. apply get_remove_ne. congruence.
  - unfold _delete_document; simpl. unfold PyDict.mem. by rewrite get_remove_eq.
Qed.

(** X15. After a document is deleted, the listing is the listing of
    before without the entry of that document, the others in their
    order. *)
Theorem listing_after_delete (documents before after : store) (doc_id : string)
    (info : doc_info) :
  PyDict.wf documents ->
  documents = before ++ (doc_id, info) :: after ->
  _list_documents (snd (_delete_document python (VStr doc_id) documents))
  = [("documents", VList (map listed before ++ map listed after))].
Proof.
  intros Hwf ->. unfold _delete_document; simpl.
  assert (Hmem : PyDict.mem doc_id (before ++ (doc_id, info) :: after) = true).
  { apply mem_keys. unfold PyDict.keys. rewrite map_app. apply elem_of_app. right. left. }
  rewrite Hmem; simpl. unfold _list_documents. f_equal. f_equal. f_equal.
  unfold PyDict.wf, PyDict.keys in Hwf. rewrite map_app in Hwf; simpl in Hwf.
  apply NoDup_app in Hwf as (_ & Hdisj & Hnd). apply NoDup_cons in Hnd as [Hafter _].
  rewrite remove_app; simpl. rewrite String.eqb_refl.
  rewrite !remove_absent, map_app; [done | |].
  - by apply get_None_keys.
  - apply get_None_keys. intros Hin. apply (Hdisj _ Hin). left.
Qed.

End DocumentStore.

Lemma delete_document_once_witness :
  let first :=
    Documents._delete_document Samples.python0 (VStr "9e107d9d372bb6826bd81d3542a419d6")
      Samples.documents in
  snd first = [("e4d909c290d0fb1ca068ffaddf22cbd0", Samples.notes)]
  /\ Documents._delete_document Samples.python0 (VStr "9e107d9d372bb6826bd81d3542a419d6")
       (snd first)
     = (Returned (error_payload "Document not found"), snd first).
Proof.
  split; [reflexivity|].
  apply (delete_document_once Samples.python0 Samples.documents
           "9e107d9d372bb6826bd81d3542a419d6").
  reflexivity.
Defined.

Lemma listing_after_delete_witness :
  Documents._list_documents
    (snd (Documents._delete_document Samples.python0
            (VStr "e4d909c290d0fb1ca068ffaddf22cbd0") Samples.documents))
  = [("documents",
      VList [VDict [("id", VStr "9e107d9d372bb6826bd81d3542a419d6");
                    ("filename", VStr "report.pdf");
                    ("file_size", VInt 2048);
                    ("upload_time", VInt 17)]])].
Proof.
  apply (listing_after_delete Samples.python0 Samples.documents
           [("9e107d9d372bb6826bd81d3542a419d6", Samples.report)] []
           "e4d909c290d0fb1ca068ffaddf22cbd0" Samples.notes).
  - unfold PyDict.wf. simpl. apply NoDup_cons. split.
    + intros H. apply list_elem_of_singleton in H. discriminate H.
    + apply NoDup_singleton.
  - reflexivity.
Defined.

(** ** Bulk generation *)

Section Bulk.
Import QRCodes.
Variable env : Env.
Variable python : Python.

(** The keyword call of the loop is the registered handler on those five
    arguments. *)
Lemma generate_one_is_call data qr_type size foreground_color background_color :
  QRCodeGeneratorPlugin._generate_qr_code env
    [("data", data); ("qr_type", qr_type); ("size", size);
     ("foreground_color", foreground_color); ("background_color", background_color)]
  = match generate_one env data qr_type size foreground_color background_color with
    | BodyReturn d => Returned d
    | BodyRaise cls msg => Raised (OtherException cls msg)
    | BodyEscape cls msg => Raised (NonException cls msg)
    end.
Proof.
  unfold QRCodeGeneratorPlugin._generate_qr_code, method, generate_one; simpl.
  by destruct (run_body env _ _).
Qed.

Lemma bulk_loop_kept generate (g : PyVal -> Payload) finish i items results :
  (forall data, data ∈ items -> generate data = BodyReturn (g data)) ->
  bulk_loop generate finish i items results
  = BodyReturn (finish (results ++ kept_results g i items)).
Proof.
  revert i results. induction items as [|data rest IH]; intros i results Hg; simpl.
  - by rewrite app_nil_r.
  - rewrite (Hg data) by left.
    assert (Hrest : forall d, d ∈ rest -> generate d = BodyReturn (g d))
      by (intros d Hd; apply Hg; by right).
    destruct (negb (PyDict.mem "error" (g data))); rewrite IH by done; [|done].
    by rewrite <- app_assoc.
Qed.

Lemma bulk_loop_all_failed generate finish i items results :
  (forall data, data ∈ items ->
     exists d, generate data = BodyReturn d /\ PyDict.mem "error" d = true) ->
  bulk_loop generate finish i items results = BodyReturn (finish results).
Proof.
  revert i. induction items as [|data rest IH]; intros i Hfail; simpl; [done|].
  destruct (Hfail data) as (d & -> & Herr); [left|]. rewrite Herr; simpl.
  apply IH. intros d' Hd'. apply Hfail. by right.
Qed.

Lemma length_kept_results generate i items :
  length (kept_results generate i items)
  = length (List.filter (fun data => negb (PyDict.mem "error" (generate data))) items).
Proof.
  revert i. induction items as [|data rest IH]; intros i; simpl; [done|].
  destruct (negb (PyDict.mem "error" (generate data))); simpl; by rewrite IH.
Qed.

Lemma elem_kept_results generate i items r :
  r ∈ kept_results generate i items <->
  exists j data,
    items !! j = Some data
    /\ PyDict.mem "error" (generate data) = false
    /\ r = PyDict.set "index" (VInt (Z.of_nat (i + j))) (generate data).
Proof.
  revert i. induction items as [|data rest IH]; intros i; simpl.
  - split; [intros H; by apply elem_of_nil in H|]. by intros (j & d & H & _).
  - destruct (PyDict.mem "error" (generate data)) eqn:Herr; simpl.
    + rewrite IH. split.
      * intros (j & d & Hj & He & ->). exists (S j), d.
        split; [done|]. split; [done|]. by rewrite Nat.add_succ_r.
      * intros (j & d & Hj & He & ->). destruct j as [|j]; simpl in Hj.
        -- injection Hj as <-. congruence.
        -- exists j, d. split; [done|]. split; [done|]. by rewrite Nat.add_succ_r.
    + rewrite elem_of_cons, IH. split.
      * intros [->|(j & d & Hj & He & ->)].
        -- exists 0%nat, data. split; [done|]. split; [done|]. by rewrite Nat.add_0_r.
        -- exists (S j), d. split; [done|]. split; [done|]. by rewrite Nat.add_succ_r.
      * intros (j & d & Hj & He & ->). destruct j as [|j]; simpl in Hj.
        -- injection Hj as <-. left. by rewrite Nat.add_0_r.
        -- right. exists j, d. split; [done|]. split; [done|]. by rewrite Nat.add_succ_r.
Qed.

(** The kept results stand in the order of their items. *)
Lemma kept_results_ordered generate i items j1 j2 r1 r2 :
  kept_results generate i items !! j1 = Some r1 ->
  kept_results generate i items !! j2 = Some r2 ->
  (j1 < j2)%nat ->
  exists a b d1 d2,
    (a < b)%nat
    /\ items !! a = Some d1 /\ items !! b = Some d2
    /\ r1 = PyDict.set "index" (VInt (Z.of_nat (i + a))) (generate d1)
    /\ r2 = PyDict.set "index" (VInt (Z.of_nat (i + b))) (generate d2).
Proof.
  revert i j1 j2. induction items as [|data rest IH]; intros i j1 j2 H1 H2 Hlt;
    simpl in *; [done|].
  assert (Hshift : forall j1 j2,
             kept_results generate (S i) rest !! j1 = Some r1 ->
             kept_results generate (S i) rest !! j2 = Some r2 ->
             (j1 < j2)%nat ->
             exists a b d1 d2,
               (a < b)%nat
               /\ (data :: rest) !! a = Some d1 /\ (data :: rest) !! b = Some d2
               /\ r1 = PyDict.set "index" (VInt (Z.of_nat (i + a))) (generate d1)
               /\ r2 = PyDict.set "index" (VInt (Z.of_nat (i + b))) (generate d2)).
  { intros k1 k2 Hk1 Hk2 Hk.
    destruct (IH (S i) k1 k2 Hk1 Hk2 Hk) as (a & b & d1 & d2 & Hab & Ha & Hb & -> & ->).
    exists (S a), (S b), d1, d2. rewrite !Nat.add_succ_r. simpl.
    split; [lia | done]. }
  destruct (negb (PyDict.mem "error" (generate data))) eqn:Hkeep; [|by eapply Hshift].
  destruct j2 as [|j2]; [lia|]. simpl in H2.
  destruct j1 as [|j1]; simpl in H1; [|eapply Hshift; [done | done | lia]].
  injection H1 as <-.
  apply list_elem_of_lookup_2, elem_kept_results in H2 as (b & d2 & Hb & _ & ->).
  exists 0%nat, (S b), data, d2. rewrite Nat.add_0_r, Nat.add_succ_r. simpl.
  split; [lia | done].
Qed.

(** X16. A bulk run over a list, for a supported type, whose calls all
    return, never reports the items that failed: its answer holds the
    results that have no key ["error"], each with the position of its item
    in the request, and in the order of the request; [total_generated]
    counts them and [total_requested] counts the items, and nothing else
    tells of a failure. *)
Theorem bulk_keeps_successes_only items t size foreground_color background_color
    (g : PyVal -> Payload) :
  PyDict.mem t qr_types = true ->
  (forall data, data ∈ items ->
     generate_one env data (VStr t) size foreground_color background_color
     = BodyReturn (g data)) ->
  exists results,
    _generate_bulk_qr_codes_body env python (VList items) (VStr t) size
      foreground_color background_color
    = BodyReturn [("bulk_results", VList (map VDict results));
                  ("total_generated", VInt (Z.of_nat (length results)));
                  ("total_requested", VInt (Z.of_nat (length items)));
                  ("qr_type", VStr t)]
    /\ (forall r, r ∈ results <->
          exists j data,
            items !! j = Some data
            /\ PyDict.mem "error" (g data) = false
            /\ r = PyDict.set "index" (VInt (Z.of_nat j)) (g data))
    /\ (forall j1 j2 r1 r2,
          results !! j1 = Some r1 -> results !! j2 = Some r2 -> (j1 < j2)%nat ->
          exists a b d1 d2,
            (a < b)%nat
            /\ items !! a = Some d1 /\ items !! b = Some d2
            /\ r1 = PyDict.set "index" (VInt (Z.of_nat a)) (g d1)
            /\ r2 = PyDict.set "index" (VInt (Z.of_nat b)) (g d2))
    /\ length results
       = length (List.filter (fun data => negb (PyDict.mem "error" (g data))) items)
    /\ (length results <= length items)%nat.
Proof.
  intros Ht Hg.
  exists (kept_results g 0 items).
  split; [|split; [|split; [|split]]].
  - unfold _generate_bulk_qr_codes_body; simpl. rewrite Ht.
    by rewrite (bulk_loop_kept _ g) by done.
  - intros r. by rewrite elem_kept_results.
  - intros j1 j2 r1 r2 H1 H2 Hlt.
    by apply (kept_results_ordered g 0 items j1 j2).
  - apply length_kept_results.
  - rewrite length_kept_results. apply filter_length_le.
Qed.

(** X17. When every item of a bulk request fails, the answer is still a
    success mapping: an empty [bulk_results], [total_generated] zero, and no
    key ["error"]. *)
Theorem bulk_all_failed_is_silent items t size foreground_color background_color :
  PyDict.mem t qr_types = true ->
  (forall data, data ∈ items ->
     exists d,
       generate_one env data (VStr t) size foreground_color background_color
       = BodyReturn d
       /\ PyDict.mem "error" d = true) ->
  _generate_bulk_qr_codes_body env python (VList items) (VStr t) size
    foreground_color background_color
  = BodyReturn [("bulk_results", VList []);
                ("total_generated", VInt 0);
                ("total_requested", VInt (Z.of_nat (length items)));
                ("qr_type", VStr t)].
Proof.
  intros Ht Hfail. unfold _generate_bulk_qr_codes_body; simpl. rewrite Ht.
  by rewrite bulk_loop_all_failed.
Qed.

End Bulk.

Lemma bulk_keeps_successes_only_witness :
  let items := [VStr "a"; VStr Samples.long_data; VStr "b"] in
  let g data : Payload :=
    match data with
    | VStr "a" | VStr "b" => [("data", data); ("filename", VStr "qr.png")]
    | _ => error_payload "QR code generation failed: data too long"
    end in
  exists results,
    QRCodes._generate_bulk_qr_codes_body Samples.env_overflow Samples.python0
      (VList items) (VStr "text") (VInt 400) (VStr "#000000") (VStr "#FFFFFF")
    = BodyReturn [("bulk_results", VList (map VDict results));
                  ("total_generated", VInt (Z.of_nat (length results)));
                  ("total_requested", VInt (Z.of_nat (length items)));
                  ("qr_type", VStr "text")]
    /\ (forall r, r ∈ results <->
          exists j data,
            items !! j = Some data
            /\ PyDict.mem "error" (g data) = false
            /\ r = PyDict.set "index" (VInt (Z.of_nat j)) (g data))
    /\ (forall j1 j2 r1 r2,
          results !! j1 = Some r1 -> results !! j2 = Some r2 -> (j1 < j2)%nat ->
          exists a b d1 d2,
            (a < b)%nat
            /\ items !! a = Some d1 /\ items !! b = Some d2
            /\ r1 = PyDict.set "index" (VInt (Z.of_nat a)) (g d1)
            /\ r2 = PyDict.set "index" (VInt (Z.of_nat b)) (g d2))
    /\ length results
       = length (List.filter (fun data => negb (PyDict.mem "error" (g data))) items)
    /\ (length results <= length items)%nat.
Proof.
  intros items g.
  apply (bulk_keeps_successes_only Samples.env_overflow Samples.python0 items "text"
           (VInt 400) (VStr "#000000") (VStr "#FFFFFF") g).
  - reflexivity.
  - intros data Hdata. subst items.
    apply elem_of_cons in Hdata as [->|Hdata]; [reflexivity|].
    apply elem_of_cons in Hdata as [->|Hdata]; [vm_compute; reflexivity|].
    apply list_elem_of_singleton in Hdata as ->. reflexivity.
Defined.

Lemma bulk_all_failed_is_silent_witness :
  QRCodes._generate_bulk_qr_codes_body Samples.env_qr Samples.python0
    (VList [VStr ""; VStr ""]) (VStr "url")
    (VInt 400) (VStr "#000000") (VStr "#FFFFFF")
  = BodyReturn [("bulk_results", VList []);
                ("total_generated", VInt 0);
                ("total_requested", VInt 2);
                ("qr_type", VStr "url")].
Proof.
  apply (bulk_all_failed_is_silent Samples.env_qr Samples.python0
           [VStr ""; VStr ""] "url" (VInt 400) (VStr "#000000") (VStr "#FFFFFF")).
  - reflexivity.
  - intros data Hdata. eexists.
    apply elem_of_cons in Hdata as [->|Hdata]; [split; reflexivity|].
    apply list_elem_of_singleton in Hdata as ->. split; reflexivity.
Defined.

(** ** The constructor of the calculators *)

Section Calculators.
Import PluginManager.



End Calculators.

(** ** The shipped plugins share no function name *)

Section Shipped.
Import PluginManager.
Variable env : Env.

Lemma shipped_names_disjoint p q n :
  p ∈ repository_plugins env -> q ∈ repository_plugins env ->
  declares p n = true -> declares q n = true -> p = q.
Proof.
  unfold repository_plugins. intros Hp Hq Hdp Hdq.
  repeat (apply elem_of_cons in Hp as [->|Hp]); [| | | | |by apply elem_of_nil in Hp];
    (repeat (apply elem_of_cons in Hq as [->|Hq]); [| | | | |by apply elem_of_nil in Hq]);
    try reflexivity;
    exfalso; apply declares_elem in Hdp; simpl in Hdp;
    repeat (apply elem_of_cons in Hdp as [->|Hdp]);
    try (by apply elem_of_nil in Hdp);
    vm_compute in Hdq; discriminate Hdq.
Qed.

(** X18. Among the five plugins of the repository no function name is
    declared twice, so nothing is shadowed whatever the order of the load:
    in every registry made of these plugins, the mapping files each
    declared function under its name with the plugin that declares it. *)
Theorem shipped_functions_route_to_their_plugin st p f :
  (forall q, q ∈ PyDict.values (plugins st) -> q ∈ repository_plugins env) ->
  p ∈ PyDict.values (plugins st) ->
  f ∈ PluginBase.get_functions p ->
  PyDict.get (fd_name f) (get_function_mapping st)
  = Some {| entry_plugin := p; entry_func_name := fd_name f |}.
Proof.
  intros Hrepo Hp Hf. rewrite get_function_mapping_entry.
  assert (Hdp : declares p (fd_name f) = true).
  { apply declares_elem. apply list_elem_of_fmap. by exists f. }
  destruct (owner (fd_name f) (PyDict.values (plugins st))) as [q|] eqn:Hown.
  - apply owner_Some in Hown as (before & after & Hvals & Hdq & _).
    assert (Hq : q ∈ PyDict.values (plugins st)).
    { rewrite Hvals. apply elem_of_app. right. left. }
    by rewrite (shipped_names_disjoint p q (fd_name f) (Hrepo p Hp) (Hrepo q Hq) Hdp Hdq).
  - rewrite owner_None in Hown. by rewrite (Hown p Hp) in Hdp.
Qed.

End Shipped.

Lemma shipped_functions_route_to_their_plugin_witness :
  PyDict.get "detect_language"
    (PluginManager.get_function_mapping
       {| PluginManager.plugins :=
            [("translation", TranslationPlugin.new Examples.env0);
             ("qr_code_generator", QRCodeGeneratorPlugin.new Examples.env0)];
          PluginManager.trace := [] |})
  = Some {| PluginManager.entry_plugin := TranslationPlugin.new Examples.env0;
            PluginManager.entry_func_name := "detect_language" |}.
Proof.
  apply (shipped_functions_route_to_their_plugin Examples.env0
           {| PluginManager.plugins :=
                [("translation", TranslationPlugin.new Examples.env0);
                 ("qr_code_generator", QRCodeGeneratorPlugin.new Examples.env0)];
              PluginManager.trace := [] |}
           (TranslationPlugin.new Examples.env0)
           (nth 1 TranslationPlugin.get_functions (Examples.decl "" ""))).
  - intros q Hq. unfold repository_plugins. simpl in Hq.
    apply elem_of_cons in Hq as [->|Hq]; [do 4 right; left|].
    apply list_elem_of_singleton in Hq as ->. do 3 right. left.
  - left.
  - right. left.
Defined.
